(** * Mongo Data Extractor: a shallow embedding of [app.py]

    The program is one Streamlit script: it decodes a JSON filter, connects
    to MongoDB, fetches the matching documents, builds a pandas frame,
    stringifies the [_id] column and offers the frame as a CSV or Excel
    download.  The script's own code ([clean_data] and the body of the
    [if st.button(...)] statement) is embedded line by line.  What the
    script calls into (json, bson, pymongo, pandas, openpyxl, streamlit) is
    not part of the repository: those collaborators are either fields of a
    [World] record (what they answer is not decided here) or small models
    whose doc comment says where they come from. *)

From Stdlib Require Import List String Ascii ZArith Bool Arith Lia DecimalString.
Import ListNotations.
Open Scope string_scope.
Set Warnings "-register-all".

(* ================================================================== *)
(** * Part I.  Definitions                                             *)
(* ================================================================== *)

(** ** Python values and exceptions *)

Module Py.

(** A dynamically typed value, as it occurs in a decoded filter, in a
    MongoDB document and in a frame cell.  A float is kept by its [repr]
    (no float arithmetic happens in the script); [PObjectId] is
    [bson.ObjectId], kept by its 24 digit hexadecimal form; [PNative] is any
    other non-JSON value (datetime, Regex, Binary, ...). *)
Inductive pyval : Type :=
| PNone
| PBool (b : bool)
| PInt (z : Z)
| PFloat (repr : string)
| PStr (s : string)
| PObjectId (hex : string)
| PNative (type_name payload : string)
| PList (items : list pyval)
| PDict (items : list (string * pyval)).

Section PyvalInduction.
Variable P : pyval -> Prop.
Hypothesis Hnone : P PNone.
Hypothesis Hbool : forall b, P (PBool b).
Hypothesis Hint : forall z, P (PInt z).
Hypothesis Hfloat : forall r, P (PFloat r).
Hypothesis Hstr : forall s, P (PStr s).
Hypothesis Hoid : forall h, P (PObjectId h).
Hypothesis Hnative : forall n p, P (PNative n p).
Hypothesis Hlist : forall l, Forall P l -> P (PList l).
Hypothesis Hdict : forall d, Forall (fun kv => P (snd kv)) d -> P (PDict d).

(** Induction on a value, with the hypothesis for every item of a list
    and every value of a mapping. *)
Fixpoint pyval_tree_ind (v : pyval) : P v :=
  match v with
  | PNone => Hnone
  | PBool b => Hbool b
  | PInt z => Hint z
  | PFloat r => Hfloat r
  | PStr s => Hstr s
  | PObjectId h => Hoid h
  | PNative n p => Hnative n p
  | PList l =>
      Hlist l ((fix all (l : list pyval) : Forall P l :=
                  match l with
                  | [] => Forall_nil P
                  | x :: rest => Forall_cons x (pyval_tree_ind x) (all rest)
                  end) l)
  | PDict d =>
      Hdict d ((fix all (d : list (string * pyval)) : Forall (fun kv => P (snd kv)) d :=
                  match d with
                  | [] => Forall_nil _
                  | kv :: rest => Forall_cons kv (pyval_tree_ind (snd kv)) (all rest)
                  end) d)
  end.

End PyvalInduction.

(** A [dict] keeps its keys in insertion order. *)
Definition dict : Type := list (string * pyval).

(** [float('nan')], the marker pandas puts in a cell with no value. *)
Definition NaN : pyval := PFloat "nan".

Definition keys (d : dict) : list string := map fst d.

(** [d.get(k)] *)
Fixpoint dict_get (d : dict) (k : string) : option pyval :=
  match d with
  | [] => None
  | (k', v) :: rest => if String.eqb k k' then Some v else dict_get rest k
  end.

(** [d[k] = v]: an existing key keeps its place, a new key goes last. *)
Fixpoint dict_set (d : dict) (k : string) (v : pyval) : dict :=
  match d with
  | [] => [(k, v)]
  | (k', v') :: rest =>
      if String.eqb k k' then (k', v) :: rest else (k', v') :: dict_set rest k v
  end.

(** [dict(pairs)] *)
Definition dict_of_pairs (pairs : list (string * pyval)) : dict :=
  fold_left (fun d kv => dict_set d (fst kv) (snd kv)) pairs [].

(** An exception object: the names of the classes of its type's method
    resolution order (its class first, [BaseException] last) and [str(e)]. *)
Record exn : Type := Exn { mro : list string; str_e : string }.

(** [isinstance(e, cls)], which is what an [except cls] clause tests. *)
Definition isinstance (e : exn) (cls : string) : bool :=
  existsb (String.eqb cls) (mro e).

Definition JSONDecodeError (msg : string) : exn :=
  Exn ["JSONDecodeError"; "ValueError"; "Exception"; "BaseException"] msg.

(** What [st.stop()] raises: a [BaseException] that is no [Exception]. *)
Definition StopException : exn :=
  Exn ["StopException"; "ScriptControlException"; "BaseException"] "".

(** The outcome of a call: a value, or a raised exception. *)
Inductive result (A : Type) : Type :=
| Ok (a : A)
| Raise (e : exn).
Arguments Ok {A} a.
Arguments Raise {A} e.

Definition bind {A B} (r : result A) (k : A -> result B) : result B :=
  match r with
  | Ok a => k a
  | Raise e => Raise e
  end.

Definition string_of_nat (n : nat) : string := NilZero.string_of_uint (Nat.to_uint n).
Definition string_of_Z (z : Z) : string := NilZero.string_of_int (Z.to_int z).

End Py.
Import Py.

(** ** JSON decoding with an object hook *)

Module Json.

(** The syntax tree the scanner of the [json] module walks, left to right.
    Where the text stops being JSON the tree has a [JBad] leaf holding the
    decoder's message (with the position); nothing to the right of that leaf
    is ever looked at. *)
Inductive json : Type :=
| JNull
| JTrue
| JFalse
| JInt (z : Z)
| JFloat (literal : string)
| JString (s : string)
| JArray (elements : list json)
| JObject (members : list (string * json))
| JBad (msg : string).

Section JsonInduction.
Variable P : json -> Prop.
Hypothesis Hnull : P JNull.
Hypothesis Htrue : P JTrue.
Hypothesis Hfalse : P JFalse.
Hypothesis Hint : forall z, P (JInt z).
Hypothesis Hfloat : forall f, P (JFloat f).
Hypothesis Hstring : forall s, P (JString s).
Hypothesis Harray : forall l, Forall P l -> P (JArray l).
Hypothesis Hobject : forall m, Forall (fun kx => P (snd kx)) m -> P (JObject m).
Hypothesis Hbad : forall msg, P (JBad msg).

(** Induction on a syntax tree, with the hypothesis for every element of
    an array and every member of an object. *)
Fixpoint json_tree_ind (j : json) : P j :=
  match j with
  | JNull => Hnull
  | JTrue => Htrue
  | JFalse => Hfalse
  | JInt z => Hint z
  | JFloat f => Hfloat f
  | JString s => Hstring s
  | JArray l =>
      Harray l ((fix all (l : list json) : Forall P l :=
                   match l with
                   | [] => Forall_nil P
                   | x :: rest => Forall_cons x (json_tree_ind x) (all rest)
                   end) l)
  | JObject m =>
      Hobject m ((fix all (m : list (string * json)) : Forall (fun kx => P (snd kx)) m :=
                    match m with
                    | [] => Forall_nil _
                    | kx :: rest => Forall_cons kx (json_tree_ind (snd kx)) (all rest)
                    end) m)
  | JBad msg => Hbad msg
  end.

End JsonInduction.

(** A scanned text: the tree of its first value, and the message of the
    ["Extra data"] error when something other than blanks follows it. *)
Record scanned : Type := Scanned { value : json; extra_data : option string }.

(** Left to right, stopping at the first exception. *)
Definition traverse {A B} (f : A -> result B) : list A -> result (list B) :=
  fix each (l : list A) : result (list B) :=
    match l with
    | [] => Ok []
    | x :: rest => bind (f x) (fun v => bind (each rest) (fun vs => Ok (v :: vs)))
    end.

Section Decode.
Variable object_hook : dict -> result pyval.

(** Modelled from the spec: §4.1 "decode using a JSON decoder extended with a
    hook that recognizes specially-tagged sub-objects".  This is
    [json.decoder]'s walk (library code, not in the repository): values are
    decoded in document order, every object becomes a [dict] that is passed
    to the hook as soon as its closing brace is read, and what the hook
    returns stands in its place; the first exception ends the decode. *)
Fixpoint decode (j : json) : result pyval :=
  match j with
  | JNull => Ok PNone
  | JTrue => Ok (PBool true)
  | JFalse => Ok (PBool false)
  | JInt z => Ok (PInt z)
  | JFloat f => Ok (PFloat f)
  | JString s => Ok (PStr s)
  | JArray elements =>
      bind (traverse decode elements) (fun vs => Ok (PList vs))
  | JObject members =>
      bind (traverse (fun kx => bind (decode (snd kx)) (fun v => Ok (fst kx, v))) members)
           (fun pairs => object_hook (dict_of_pairs pairs))
  | JBad msg => Raise (JSONDecodeError msg)
  end.

(** The members of an object, decoded. *)
Definition decode_members (members : list (string * json)) : result (list (string * pyval)) :=
  traverse (fun kx => bind (decode (snd kx)) (fun v => Ok (fst kx, v))) members.

(** [JSONDecoder.decode]: the value, then the check for trailing text. *)
Definition decode_document (doc : scanned) : result pyval :=
  bind (decode (value doc)) (fun v =>
  match extra_data doc with
  | Some msg => Raise (JSONDecodeError msg)
  | None => Ok v
  end).

End Decode.

(** No hook: an object decodes to the plain [dict]. *)
Definition no_hook (d : dict) : result pyval := Ok (PDict d).

(** The table of recognized extension tags ([bson.json_util._PARSERS]): a
    tag and its conversion, which returns the native value or raises on a
    payload it cannot take. *)
Definition parsers : Type := list (string * (dict -> result pyval)).

Fixpoint parser_of (table : parsers) (tag : string) : option (dict -> result pyval) :=
  match table with
  | [] => None
  | (t, conv) :: rest => if String.eqb tag t then Some conv else parser_of rest tag
  end.

Fixpoint first_tag (table : parsers) (ks : list string) : option (dict -> result pyval) :=
  match ks with
  | [] => None
  | k :: rest =>
      match parser_of table k with
      | Some conv => Some conv
      | None => first_tag table rest
      end
  end.

Definition recognized (table : parsers) (d : dict) : option (dict -> result pyval) :=
  first_tag table (keys d).

(** Modelled from the spec: §9 "a fixed enumerated set of recognized
    extension tags, each mapped to a conversion function; unrecognized tags
    pass through as plain nested mappings".  This is
    [bson.json_util.object_hook] (library code, not in the repository): the
    first key of the mapping that is a recognized tag selects the
    conversion. *)
Definition json_util_object_hook (table : parsers) (d : dict) : result pyval :=
  match recognized table d with
  | Some conv => conv d
  | None => Ok (PDict d)
  end.

(** *** The spec's reading of the extended decode (§8, §9)

    Stated without the hook and without its lookup: which mappings carry a
    tag is said from the keys of the standard decode and the entries of the
    table. *)

(** [k] is a recognized extension tag: the table has an entry for it. *)
Definition is_tag (table : parsers) (k : string) : Prop :=
  exists conv, In (k, conv) table.

(** [t] is the tag of the mapping [d], with conversion [conv]: [t] is the
    first key of [d] that is a recognized tag, and [conv] is what the first
    entry of the table for [t] gives. *)
Definition tag_of (table : parsers) (d : dict) (t : string)
    (conv : dict -> result pyval) : Prop :=
  (exists before after,
      keys d = (before ++ t :: after)%list /\ forall k, In k before -> ~ is_tag table k)
  /\ (exists pre post,
         table = (pre ++ (t, conv) :: post)%list /\ forall c, ~ In (t, c) pre).

(** No key of [d] is a recognized tag. *)
Definition untagged (table : parsers) (d : dict) : Prop :=
  forall k, In k (keys d) -> ~ is_tag table k.

(** [entry_rel R]: two entries with the same key whose values are in [R]. *)
Definition entry_rel (R : pyval -> pyval -> Prop) (kv kv' : string * pyval) : Prop :=
  fst kv = fst kv' /\ R (snd kv) (snd kv').

(** [extended table s v]: [v] is the standard decode [s], structurally,
    except that every sub-object of [s] that carries a recognized tag stands
    in [v] as the native value the tag's conversion gives for it (the
    members of the sub-object extended first), and every sub-object with no
    recognized tag, whatever its keys look like, is the plain mapping. *)
Inductive extended (table : parsers) : pyval -> pyval -> Prop :=
| ext_none : extended table PNone PNone
| ext_bool b : extended table (PBool b) (PBool b)
| ext_int z : extended table (PInt z) (PInt z)
| ext_float r : extended table (PFloat r) (PFloat r)
| ext_str s : extended table (PStr s) (PStr s)
| ext_list l l' :
    Forall2 (extended table) l l' ->
    extended table (PList l) (PList l')
| ext_plain d d' :
    Forall2 (entry_rel (extended table)) d d' ->
    untagged table d ->
    extended table (PDict d) (PDict d')
| ext_tagged d d' t conv v :
    Forall2 (entry_rel (extended table)) d d' ->
    tag_of table d t conv ->
    conv d' = Ok v ->
    extended table (PDict d) v.

(** A text's tags are well formed when, for every object of the text that
    carries a recognized tag, the tag's conversion accepts the mapping of the
    object's extended members (§4.1 counts a text with a malformed tag as not
    well formed). *)
Fixpoint well_tagged (table : parsers) (j : json) : Prop :=
  match j with
  | JArray elements =>
      fold_right (fun x rest => well_tagged table x /\ rest) True elements
  | JObject members =>
      fold_right (fun kx rest => well_tagged table (snd kx) /\ rest) True members
      /\ forall pairs pairs' t conv,
           decode_members no_hook members = Ok pairs ->
           Forall2 (entry_rel (extended table)) pairs pairs' ->
           tag_of table (dict_of_pairs pairs) t conv ->
           exists v, conv (dict_of_pairs pairs') = Ok v
  | _ => True
  end.

End Json.
Import Json.

(** ** Delimited text *)

Module Csv.
Local Open Scope list_scope.

Definition bytes : Type := list ascii.

Definition comma : ascii := ","%char.
Definition dquote : ascii := "034"%char.
Definition lf : ascii := "010"%char.
Definition cr : ascii := "013"%char.

(** The bytes that make a field need quotes: the delimiter, the quote and
    the line breaks. *)
Definition special (c : ascii) : bool :=
  Ascii.eqb c comma || Ascii.eqb c dquote || Ascii.eqb c lf || Ascii.eqb c cr.

Definition needs_quotes (f : bytes) : bool := existsb special f.

Fixpoint double_quotes (f : bytes) : bytes :=
  match f with
  | [] => []
  | c :: rest =>
      if Ascii.eqb c dquote then dquote :: dquote :: double_quotes rest
      else c :: double_quotes rest
  end.

Definition write_field (f : bytes) : bytes :=
  if needs_quotes f then dquote :: double_quotes f ++ [dquote] else f.

Fixpoint join_fields (fields : list bytes) : bytes :=
  match fields with
  | [] => []
  | [f] => write_field f
  | f :: rest => write_field f ++ comma :: join_fields rest
  end.

(** One record: its fields, comma separated, then the line feed.  A record
    made of one empty field is written as an empty quoted field, so that it
    is not taken for an empty line. *)
Definition writerow (fields : list bytes) : bytes :=
  match fields with
  | [ [] ] => [dquote; dquote; lf]
  | _ => join_fields fields ++ [lf]
  end.

(** Modelled from the spec: §4.4 "serializes Table as comma-separated
    values" and §6 "standard delimited text".  This is the writer pandas
    hands its rows to ([csv.writer] with minimal quoting, doubled quotes and
    the line feed as terminator; library code, not in the repository): a
    field is quoted when it holds the delimiter, a quote or a line break. *)
Definition writerows (rows : list (list bytes)) : bytes :=
  List.concat (map writerow rows).

(** The states of the reader. *)
Inductive mode : Type :=
| StartRecord
| StartField
| InField
| InQuotedField
| QuoteInQuotedField
| AfterCR.

(** The reader's state: the bytes of the field being read and the fields
    of the record being read, both newest first. *)
Record state : Type := State { at_ : mode; field : bytes; record : list bytes }.

Definition start : state := State StartRecord [] [].

(** The record read so far, closed by the field being read. *)
Definition close_record (s : state) : list bytes := rev (rev (field s) :: record s).

Definition add_char (s : state) (m : mode) (c : ascii) : state :=
  State m (c :: field s) (record s).

Definition save_field (s : state) : state :=
  State StartField [] (rev (field s) :: record s).

Definition end_record (s : state) (c : ascii) : state * list (list bytes) :=
  (State (if Ascii.eqb c cr then AfterCR else StartRecord) [] [], [close_record s]).

Definition is_eol (c : ascii) : bool := Ascii.eqb c lf || Ascii.eqb c cr.

Definition step_field (s : state) (c : ascii) : state * list (list bytes) :=
  if is_eol c then end_record s c
  else if Ascii.eqb c dquote then (State InQuotedField (field s) (record s), [])
  else if Ascii.eqb c comma then (save_field s, [])
  else (add_char s InField c, []).

Definition step_record (s : state) (c : ascii) : state * list (list bytes) :=
  if is_eol c then (State (if Ascii.eqb c cr then AfterCR else StartRecord) [] [], [ [] ])
  else step_field s c.

Definition step (s : state) (c : ascii) : state * list (list bytes) :=
  match at_ s with
  | StartRecord => step_record s c
  | AfterCR => if Ascii.eqb c lf then (start, []) else step_record start c
  | StartField => step_field s c
  | InField =>
      if is_eol c then end_record s c
      else if Ascii.eqb c comma then (save_field s, [])
      else (add_char s InField c, [])
  | InQuotedField =>
      if Ascii.eqb c dquote then (State QuoteInQuotedField (field s) (record s), [])
      else (add_char s InQuotedField c, [])
  | QuoteInQuotedField =>
      if Ascii.eqb c dquote then (add_char s InQuotedField c, [])
      else if Ascii.eqb c comma then (save_field s, [])
      else if is_eol c then end_record s c
      else (add_char s InField c, [])
  end.

Fixpoint run (s : state) (input : bytes) : list (list bytes) :=
  match input with
  | [] =>
      match at_ s with
      | StartRecord | AfterCR => []
      | _ => [close_record s]
      end
  | c :: rest => let (s', out) := step s c in out ++ run s' rest
  end.

(** Modelled from the spec: §8 "re-parsing it as delimited text".  The spec
    names no reader and the repository has none; this is the usual reader of
    comma-separated text as a state machine over the bytes (the states of
    [csv.reader]): a record ends at LF, CR or CRLF outside quotes, a quote
    inside quotes is written twice, and an empty line is a record with no
    field. *)
Definition reader (input : bytes) : list (list bytes) := run start input.

(** The text read as a table: the header and the rows, as strings. *)
Definition read_table (input : bytes) : option (list string * list (list string)) :=
  match map (map string_of_list_ascii) (reader input) with
  | [] => None
  | header :: body => Some (header, body)
  end.

(** The reader's state at the start of a field: nothing read of it yet. *)
Definition at_field_start (s : state) : Prop :=
  (at_ s = StartField \/ at_ s = StartRecord /\ record s = []) /\ field s = [].

End Csv.

(** ** Handles of the database driver, and workbooks *)

Record MongoClient : Type :=
  { host : string; serverSelectionTimeoutMS : Z }.
Record Database : Type :=
  { db_client : MongoClient; database_name : string }.
Record Collection : Type :=
  { col_database : Database; collection_name : string }.

Record Sheet : Type := { title : string; grid : list (list pyval) }.
Definition Workbook : Type := list Sheet.

(** ** The collaborators the script calls

    What the libraries outside the repository answer.  A [World] fixes, for
    one run, the scanner of the json module, bson's tag table, the text
    Python's [str] gives for containers and native values, what each call
    into pymongo raises or returns, and what openpyxl makes of a workbook. *)
Record World : Type := {
  scan : string -> scanned;
  PARSERS : parsers;
  str_object : pyval -> string;
  MongoClient_raises : string -> Z -> option exn;
  server_info_raises : MongoClient -> option exn;
  getitem_database_raises : MongoClient -> string -> option exn;
  getitem_collection_raises : Database -> string -> option exn;
  find_list : Collection -> pyval -> result (list dict);
  openpyxl_save : Workbook -> result Csv.bytes
}.

(** [str(v)].  Scalars print as Python prints them; the text of a
    container or of a native value is the world's. *)
Definition py_str (W : World) (v : pyval) : string :=
  match v with
  | PNone => "None"
  | PBool true => "True"
  | PBool false => "False"
  | PInt z => string_of_Z z
  | PFloat r => r
  | PStr s => s
  | PObjectId hex => hex
  | PNative _ _ | PList _ | PDict _ => str_object W v
  end.

(** ** In-memory buffers *)

Module Io.
Local Open Scope list_scope.

(** Modelled from the spec: §4.4 "fully buffered in memory (no temp files)
    and returned positioned at the start".  This is [io.BytesIO] (Python's
    library, not in the repository): the bytes held and the stream
    position. *)
Record BytesIO : Type := { getvalue : Csv.bytes; tell : nat }.

Definition new : BytesIO := {| getvalue := []; tell := 0 |}.

(** [b.write(data)]: the bytes go in at the position, which moves past them. *)
Definition write (b : BytesIO) (data : Csv.bytes) : BytesIO :=
  {| getvalue := firstn (tell b) (getvalue b) ++ data
                 ++ skipn (tell b + List.length data) (getvalue b);
     tell := tell b + List.length data |}.

(** [b.seek(pos)] *)
Definition seek (b : BytesIO) (pos : nat) : BytesIO :=
  {| getvalue := getvalue b; tell := pos |}.

End Io.

(** ** Frames *)

Module Pandas.
Local Open Scope list_scope.

(** A frame: a [RangeIndex] of [index] rows and the labelled columns, in
    order. *)
Record DataFrame : Type := { index : nat; data : list (string * list pyval) }.

(** [df.columns] *)
Definition columns (df : DataFrame) : list string := map fst (data df).

Definition add_unique (uniques : list string) (k : string) : list string :=
  if existsb (String.eqb k) uniques then uniques else uniques ++ [k].

(** The key-discovery pass over the records: every key not seen yet is
    appended. *)
Definition union_of_keys (records : list dict) : list string :=
  fold_left (fun uniques r => fold_left add_unique (keys r) uniques) records [].

Definition column_of (records : list dict) (k : string) : list pyval :=
  map (fun r => match dict_get r k with Some v => v | None => NaN end) records.

(** Modelled from the spec: §4.3 "builds a Table whose columns are the union
    of all keys seen across the input records, preserving first-occurrence
    order; rows are record values aligned to those columns, missing keys
    filled with an empty/null marker" and "No other type coercion is
    performed".  This is [pd.DataFrame(list_of_dicts)] (library code, not in
    the repository); the dtype pandas infers for a column is not modelled. *)
Definition DataFrame_of_records (records : list dict) : DataFrame :=
  {| index := List.length records;
     data := map (fun k => (k, column_of records k)) (union_of_keys records) |}.

(** [name in df.columns] *)
Definition contains (df : DataFrame) (name : string) : bool :=
  existsb (String.eqb name) (columns df).

(** [df[name]]: the column of that label ([None]: pandas raises KeyError). *)
Definition getitem (df : DataFrame) (name : string) : option (list pyval) :=
  match find (fun col => String.eqb name (fst col)) (data df) with
  | Some col => Some (snd col)
  | None => None
  end.

(** [df[name] = values]: the values replace those of every column of that
    label; a new label is appended as the last column. *)
Definition setitem (df : DataFrame) (name : string) (values : list pyval) : DataFrame :=
  {| index := index df;
     data := if contains df name
             then map (fun col => if String.eqb name (fst col)
                                  then (fst col, values) else col) (data df)
             else data df ++ [(name, values)] |}.

(** Modelled from the spec: §4.3 "rewritten in place to its canonical
    string representation".  This is [Series.astype(str)] (library code, not
    in the repository): every value of the column becomes the [str] that
    Python's [str] gives for it. *)
Definition astype_str (W : World) (values : list pyval) : list pyval :=
  map (fun v => PStr (py_str W v)) values.

(** [df.iloc[i]]: the cells of row [i], one per column. *)
Definition iloc (df : DataFrame) (i : nat) : list pyval :=
  map (fun col => nth i (snd col) NaN) (data df).

Definition rows (df : DataFrame) : list (list pyval) :=
  map (iloc df) (seq 0 (index df)).

(** [pd.isna(v)] on a scalar cell. *)
Definition isna (v : pyval) : bool :=
  match v with
  | PNone => true
  | PFloat r => String.eqb r "nan"
  | _ => false
  end.

(** The text a cell is written as: the empty [na_rep] for a missing value,
    [str] of the value otherwise. *)
Definition cell_text (W : World) (v : pyval) : string :=
  if isna v then "" else py_str W v.

(** The rows handed to the writer: the header, then one row per record;
    with [index=True] each row starts with the index label. *)
Definition csv_rows (W : World) (df : DataFrame) (with_index : bool) : list (list string) :=
  let header := columns df in
  let body := map (map (cell_text W)) (rows df) in
  if with_index
  then ("" :: header) :: map (fun ir => string_of_nat (fst ir) :: snd ir)
                              (combine (seq 0 (index df)) body)
  else header :: body.

(** Modelled from the spec: §4.4 "DelimitedText: serializes Table as
    comma-separated values, header row = column names".  This is
    [DataFrame.to_csv(buffer, index=...)] (library code, not in the
    repository) writing into a binary buffer. *)
Definition to_csv (W : World) (df : DataFrame) (buffer : Io.BytesIO) (with_index : bool) : Io.BytesIO :=
  Io.write buffer (Csv.writerows (map (map list_ascii_of_string) (csv_rows W df with_index))).

Definition excel_cell (v : pyval) : pyval := if isna v then PStr "" else v.

(** Modelled from the spec: §4.4 "Spreadsheet: serializes Table as a
    single-sheet workbook, header row = column names".  This is the workbook
    [DataFrame.to_excel(buffer, index=..., engine='openpyxl')] asks openpyxl
    to save (library code, not in the repository): one sheet named Sheet1. *)
Definition excel_workbook (df : DataFrame) (with_index : bool) : Workbook :=
  let header := map PStr (columns df) in
  let body := map (map excel_cell) (rows df) in
  [ {| title := "Sheet1";
       grid := if with_index
               then (PStr "" :: header)
                    :: map (fun ir => PInt (Z.of_nat (fst ir)) :: snd ir)
                           (combine (seq 0 (index df)) body)
               else header :: body |} ].

(** *** The spec's column order (§3): "the union of keys observed across
    records, in first-seen order".  Of the keys of all records, one after
    the other, each is kept where it occurs first. *)
Fixpoint first_seen (ks : list string) : list string :=
  match ks with
  | [] => []
  | k :: rest => k :: filter (fun k' => negb (String.eqb k' k)) (first_seen rest)
  end.

(** The keys that are not among [u]. *)
Definition fresh (u : list string) (k : string) : bool := negb (existsb (String.eqb k) u).

End Pandas.
Import Pandas.

(** ** The script *)

Module App.

(** The choice of the [st.radio] widget, whose options are CSV and Excel. *)
Inductive FileFormat : Type := CSV | Excel.

Definition format_label (f : FileFormat) : string :=
  match f with CSV => "CSV" | Excel => "Excel" end.

(** What the widgets hold when the button is pressed. *)
Record Inputs : Type := {
  mongo_uri : string;
  db_name : string;
  col_name : string;
  filter_input : string;
  file_format : FileFormat
}.

(** A call into a library whose answer belongs to the world. *)
Inductive Call : Type :=
| json_loads (text : string)
| new_MongoClient (uri : string) (timeout_ms : Z)
| server_info (c : MongoClient)
| getitem_database (c : MongoClient) (name : string)
| getitem_collection (db : Database) (name : string)
| find (col : Collection) (query : pyval)
| to_excel (wb : Workbook)
| close (c : MongoClient).

(** What a run does that is seen from outside, in order: the library calls
    (with the exception each raised, if any), what is put on the page, and
    the log lines. *)
Inductive Event : Type :=
| Called (c : Call) (raised : option exn)
| st_error (body : string)
| st_warning (body : string)
| st_success (body : string)
| st_download_button (label : string) (data : Io.BytesIO) (file_name mime : string)
| st_stop
| logging_info (msg : string)
| logging_warning (msg : string)
| logging_error (msg : string).

(** The state a run threads: the local variable [client], which the
    [finally] block reads, and the events so far. *)
Record Frame : Type := { client : option MongoClient; trace : list Event }.

(** A piece of the script: from a frame to a value or a raised exception,
    and the frame it leaves. *)
Definition M (A : Type) : Type := Frame -> result A * Frame.

Definition ret {A} (a : A) : M A := fun s => (Ok a, s).

Definition raise {A} (e : exn) : M A := fun s => (Raise e, s).

Definition mbind {A B} (m : M A) (k : A -> M B) : M B :=
  fun s => match m s with
           | (Ok a, s') => k a s'
           | (Raise e, s') => (Raise e, s')
           end.

Definition emit (ev : Event) : M unit :=
  fun s => (Ok tt, {| client := client s; trace := (trace s ++ [ev])%list |}).

Definition assign_client (c : MongoClient) : M unit :=
  fun s => (Ok tt, {| client := Some c; trace := trace s |}).

Definition read_client : M (option MongoClient) := fun s => (Ok (client s), s).

(** A library call that returns [a] unless it raises. *)
Definition call {A} (c : Call) (raises : option exn) (a : A) : M A :=
  match raises with
  | Some e => mbind (emit (Called c (Some e))) (fun _ => raise e)
  | None => mbind (emit (Called c None)) (fun _ => ret a)
  end.

Definition call_result {A} (c : Call) (r : result A) : M A :=
  match r with
  | Raise e => mbind (emit (Called c (Some e))) (fun _ => raise e)
  | Ok a => mbind (emit (Called c None)) (fun _ => ret a)
  end.

(** The first [except] clause whose class the exception is an instance of
    handles it; with none, the exception goes on. *)
Fixpoint dispatch {A} (handlers : list (string * (exn -> M A))) (e : exn) : M A :=
  match handlers with
  | [] => raise e
  | (cls, handler) :: rest => if isinstance e cls then handler e else dispatch rest e
  end.

(** [try: body except cls as e: handler ...] *)
Definition try_except {A} (body : M A) (handlers : list (string * (exn -> M A))) : M A :=
  fun s => match body s with
           | (Ok a, s') => (Ok a, s')
           | (Raise e, s') => dispatch handlers e s'
           end.

(** [try: body finally: final]: [final] runs however [body] ends; the
    outcome is [body]'s unless [final] itself raises. *)
Definition try_finally {A} (body : M A) (final : M unit) : M A :=
  fun s => match body s with
           | (r, s') =>
               match final s' with
               | (Ok _, s'') => (r, s'')
               | (Raise e, s'') => (Raise e, s'')
               end
           end.

Declare Scope script_scope.
Delimit Scope script_scope with script.
Notation "x <- m ;; k" := (mbind m (fun x => k))
  (at level 61, m at next level, right associativity) : script_scope.
Notation "m ;; k" := (mbind m (fun _ => k))
  (at level 61, right associativity) : script_scope.

Section Script.
Variable W : World.
Variable inp : Inputs.
Local Open Scope script_scope.

(** [clean_data] (lines 46-50). *)
Definition clean_data (df : DataFrame) : DataFrame :=
  if contains df "_id" then
    match getitem df "_id" with
    | Some ids => setitem df "_id" (astype_str W ids)
    | None => df  (* KeyError; not reached, the label was just found *)
    end
  else df.

(** [json.loads(filter_input, object_hook=json_util.object_hook)] *)
Definition loads (text : string) : result pyval :=
  decode_document (json_util_object_hook (PARSERS W)) (scan W text).

(** Lines 57-63: the filter is decoded; a [JSONDecodeError] is reported and
    the script stopped. *)
Definition parse_filter : M pyval :=
  try_except
    (call_result (json_loads (filter_input inp)) (loads (filter_input inp)))
    [ ("JSONDecodeError", fun e =>
         emit (st_error ("❌ Invalid JSON format in Filter Criteria: " ++ str_e e)) ;;
         emit (logging_error ("Invalid JSON input: " ++ str_e e)) ;;
         emit st_stop ;;
         raise StopException) ].

(** Lines 93-106: the download buffer, its content type and file name. *)
Definition export (df : DataFrame) : M (Io.BytesIO * string * string) :=
  let buffer := Io.new in
  match file_format inp with
  | CSV =>
      let buffer := to_csv W df buffer false in
      ret (Io.seek buffer 0, "text/csv", "mongo_export.csv")
  | Excel =>
      let wb := excel_workbook df false in
      saved <- call_result (to_excel wb) (openpyxl_save W wb) ;;
      let buffer := Io.write buffer saved in
      ret (Io.seek buffer 0,
           "application/vnd.openxmlformats-officedocument.spreadsheetml.sheet",
           "mongo_export.xlsx")
  end.

(** Lines 56-116: the body of the outer [try]. *)
Definition try_body : M unit :=
  query_filter <- parse_filter ;;
  emit (logging_info ("Attempting to connect to " ++ mongo_uri inp ++ "...")) ;;
  let c := {| host := mongo_uri inp; serverSelectionTimeoutMS := 5000 |} in
  c <- call (new_MongoClient (mongo_uri inp) 5000)
            (MongoClient_raises W (mongo_uri inp) 5000) c ;;
  assign_client c ;;
  call (server_info c) (server_info_raises W c) tt ;;
  emit (logging_info "Connection successful.") ;;
  db <- call (getitem_database c (db_name inp))
             (getitem_database_raises W c (db_name inp))
             {| db_client := c; database_name := db_name inp |} ;;
  collection <- call (getitem_collection db (col_name inp))
                     (getitem_collection_raises W db (col_name inp))
                     {| col_database := db; collection_name := col_name inp |} ;;
  emit (logging_info ("Querying collection: " ++ col_name inp ++ " with filter: "
                      ++ py_str W query_filter)) ;;
  data <- call_result (find collection query_filter) (find_list W collection query_filter) ;;
  match data with
  | [] =>
      let msg := "No records found matching the criteria." in
      emit (st_warning msg) ;;
      emit (logging_warning msg)
  | _ :: _ =>
      emit (logging_info ("Retrieved " ++ string_of_nat (List.length data) ++ " records.")) ;;
      let df := DataFrame_of_records data in
      let df := clean_data df in
      artifact <- export df ;;
      let '(buffer, mime_type, file_name) := artifact in
      emit (st_success ("✅ Successfully fetched " ++ string_of_nat (List.length data)
                        ++ " records!")) ;;
      emit (st_download_button ("📥 Download " ++ format_label (file_format inp))
                               buffer file_name mime_type) ;;
      emit (logging_info "Download button generated successfully.")
  end.

(** Lines 118-132: the [except] clauses of the outer [try], in order. *)
Definition handlers : list (string * (exn -> M unit)) :=
  [ ("ServerSelectionTimeoutError", fun e =>
       let err_msg := "❌ Connection Timeout: Could not connect to MongoDB host. Check your VPN or Host settings." in
       emit (st_error err_msg) ;;
       emit (st_error ("Details: " ++ str_e e)) ;;
       emit (logging_error ("Connection Timeout: " ++ str_e e)));
    ("OperationFailure", fun e =>
       let err_msg := "❌ Authentication or Database Error." in
       emit (st_error err_msg) ;;
       emit (st_error ("Details: " ++ str_e e)) ;;
       emit (logging_error ("Operational Failure: " ++ str_e e)));
    ("Exception", fun e =>
       emit (st_error ("❌ An unexpected error occurred: " ++ str_e e)) ;;
       emit (logging_error ("Unexpected Error: " ++ str_e e))) ].

(** Lines 134-137: the [finally] block.  A [MongoClient] object is truthy,
    so [if client] asks whether the variable was assigned. *)
Definition finally_block : M unit :=
  c <- read_client ;;
  match c with
  | Some c =>
      call (close c) None tt ;;
      emit (logging_info "MongoDB connection closed.")
  | None => ret tt
  end.

(** Lines 54-137: what pressing the button runs, from [client = None]. *)
Definition fetch_and_generate : M unit :=
  try_finally (try_except try_body handlers) finally_block.

Definition main : result unit * Frame :=
  fetch_and_generate {| client := None; trace := [] |}.

End Script.

End App.
Import App.

(** ** What the caller is shown

    The script has no return value: the interactive shell (§6) learns the
    outcome of a run from what is put on the page.  These definitions read
    the spec's outcomes off a trace. *)

Module Shell.

Inductive FailureKind : Type :=
| FilterSyntax
| ConnectionTimeout
| AuthorizationFailure
| Unclassified.

(** §6: payload, content type and file name of the download. *)
Record ExportArtifact : Type :=
  { payload : Io.BytesIO; content_type : string; filename : string }.

Inductive Outcome : Type :=
| Success (artifact : ExportArtifact)
| EmptyResult
| Failure (kind : FailureKind) (message : string).

(** [s.startswith(p)] *)
Fixpoint startswith (s p : string) {struct p} : bool :=
  match p with
  | EmptyString => true
  | String a p' =>
      match s with
      | EmptyString => false
      | String b s' => Ascii.eqb a b && startswith s' p'
      end
  end.

(** The failure kind an error banner announces. *)
Definition kind_of_banner (body : string) : option FailureKind :=
  if startswith body "❌ Invalid JSON format in Filter Criteria: " then Some FilterSyntax
  else if startswith body "❌ Connection Timeout: " then Some ConnectionTimeout
  else if startswith body "❌ Authentication or Database Error." then Some AuthorizationFailure
  else if startswith body "❌ An unexpected error occurred: " then Some Unclassified
  else None.

(** The outcome an event announces, if it announces one: a classified
    error banner is a failure, the warning is the empty result, the download
    button is the success with its artifact. *)
Definition announces (ev : Event) : option Outcome :=
  match ev with
  | st_error body =>
      match kind_of_banner body with
      | Some k => Some (Failure k body)
      | None => None
      end
  | st_warning _ => Some EmptyResult
  | st_download_button _ data file_name mime =>
      Some (Success {| payload := data; content_type := mime; filename := file_name |})
  | _ => None
  end.

Fixpoint outcomes (tr : list Event) : list Outcome :=
  match tr with
  | [] => []
  | ev :: rest =>
      match announces ev with
      | Some o => o :: outcomes rest
      | None => outcomes rest
      end
  end.

(** §4.2 and §7: the kind each error belongs to.  A JSON decode error is
    one raised by the decode of the filter. *)
Definition kind_of_class (e : exn) : FailureKind :=
  if isinstance e "ServerSelectionTimeoutError" then ConnectionTimeout
  else if isinstance e "OperationFailure" then AuthorizationFailure
  else Unclassified.

Definition classify (site : Call) (e : exn) : FailureKind :=
  match site with
  | json_loads _ => if isinstance e "JSONDecodeError" then FilterSyntax else kind_of_class e
  | _ => kind_of_class e
  end.

(** The handles a run created, and the handles it closed, in order. *)
Fixpoint created (tr : list Event) : list MongoClient :=
  match tr with
  | [] => []
  | Called (new_MongoClient uri t) None :: rest =>
      {| host := uri; serverSelectionTimeoutMS := t |} :: created rest
  | _ :: rest => created rest
  end.

Fixpoint closed (tr : list Event) : list MongoClient :=
  match tr with
  | [] => []
  | Called (close c) _ :: rest => c :: closed rest
  | _ :: rest => closed rest
  end.

(** The events that follow the creation of the first handle. *)
Fixpoint after_creation (tr : list Event) : list Event :=
  match tr with
  | [] => []
  | Called (new_MongoClient _ _) None :: rest => rest
  | _ :: rest => after_creation rest
  end.

(** The connection attempts of a run: the calls of the [MongoClient]
    constructor, whatever their outcome. *)
Fixpoint connection_attempts (tr : list Event) : nat :=
  match tr with
  | [] => 0
  | Called (new_MongoClient _ _) _ :: rest => S (connection_attempts rest)
  | _ :: rest => connection_attempts rest
  end.

(** The queries a run issued. *)
Fixpoint queries (tr : list Event) : list pyval :=
  match tr with
  | [] => []
  | Called (find _ q) _ :: rest => q :: queries rest
  | _ :: rest => queries rest
  end.

End Shell.
Import Shell.

(** ** Sample worlds

    Concrete collaborators for the examples: bson's [$oid] tag, a reachable
    or an unreachable server, and the documents a query returns. *)

Module Examples.

(** The double quote and the line feed, as strings. *)
Definition q : string := String "034"%char "".
Definition nl : string := String "010"%char "".
Definition crlf : string := String "013"%char nl.

Definition InvalidId (msg : string) : exn :=
  Exn ["InvalidId"; "BSONError"; "Exception"; "BaseException"] msg.

Definition TypeError (msg : string) : exn :=
  Exn ["TypeError"; "Exception"; "BaseException"] msg.

Definition ServerSelectionTimeoutError (msg : string) : exn :=
  Exn ["ServerSelectionTimeoutError"; "AutoReconnect"; "ConnectionFailure";
       "PyMongoError"; "Exception"; "BaseException"] msg.

Definition is_hex (c : ascii) : bool :=
  let n := nat_of_ascii c in
  (((48 <=? n) && (n <=? 57)) || ((97 <=? n) && (n <=? 102))
   || ((65 <=? n) && (n <=? 70)))%nat.

Definition valid_oid (s : string) : bool :=
  (String.length s =? 24)%nat && forallb is_hex (list_ascii_of_string s).

(** bson's conversion of [{"$oid": hex}]: an [ObjectId], or [InvalidId]
    when the payload is no 24 digit hexadecimal string. *)
Definition parse_canonical_oid (d : dict) : result pyval :=
  match d with
  | [(_, PStr s)] =>
      if valid_oid s then Ok (PObjectId s)
      else Raise (InvalidId ("'" ++ s ++ "' is not a valid ObjectId, it must be a 12-byte input or a 24-character hex string"))
  | [_] => Raise (TypeError "id must be an instance of (bytes, str, ObjectId)")
  | _ => Raise (TypeError "Bad $oid, extra field(s)")
  end.

(** [{"status":"ACTIVE"}] *)
Definition active_filter : string :=
  "{" ++ q ++ "status" ++ q ++ ":" ++ q ++ "ACTIVE" ++ q ++ "}".

(** [{"status":}] (scenario D of the spec) *)
Definition broken_filter : string := "{" ++ q ++ "status" ++ q ++ ":}".

(** [{"_id": {"$oid": "zz"}}]: JSON, with a malformed [$oid] tag. *)
Definition bad_oid_filter : string :=
  "{" ++ q ++ "_id" ++ q ++ ": {" ++ q ++ "$oid" ++ q ++ ": " ++ q ++ "zz" ++ q ++ "}}".

(** [{"_id": {"$oid": "5f1d7f3e8b0c4a2d9c6e4b1a"}, "ref": {"$ref": "jobs"}}] *)
Definition oid_filter : string :=
  "{" ++ q ++ "_id" ++ q ++ ": {" ++ q ++ "$oid" ++ q ++ ": " ++ q
  ++ "5f1d7f3e8b0c4a2d9c6e4b1a" ++ q ++ "}, " ++ q ++ "ref" ++ q ++ ": {"
  ++ q ++ "$ref" ++ q ++ ": " ++ q ++ "jobs" ++ q ++ "}}".

(** What the scanner makes of these texts. *)
Definition example_scan (text : string) : scanned :=
  if String.eqb text active_filter then
    Scanned (JObject [("status", JString "ACTIVE")]) None
  else if String.eqb text broken_filter then
    Scanned (JObject [("status", JBad "Expecting value: line 1 column 11 (char 10)")]) None
  else if String.eqb text bad_oid_filter then
    Scanned (JObject [("_id", JObject [("$oid", JString "zz")])]) None
  else if String.eqb text oid_filter then
    Scanned (JObject [("_id", JObject [("$oid", JString "5f1d7f3e8b0c4a2d9c6e4b1a")]);
                      ("ref", JObject [("$ref", JString "jobs")])]) None
  else Scanned (JBad "Expecting value: line 1 column 1 (char 0)") None.

Definition example_world (unreachable : option exn) (documents : list dict) : World :=
  {| scan := example_scan;
     PARSERS := [("$oid", parse_canonical_oid)];
     str_object := fun _ => "<object>";
     MongoClient_raises := fun _ _ => None;
     server_info_raises := fun _ => unreachable;
     getitem_database_raises := fun _ _ => None;
     getitem_collection_raises := fun _ _ => None;
     find_list := fun _ _ => Ok documents;
     openpyxl_save := fun _ => Ok ["P"%char; "K"%char] |}.

(** Two documents; the second has no [status], and [parent] holds an
    [ObjectId] outside [_id]. *)
Definition documents : list dict :=
  [ [("_id", PObjectId "5f1d7f3e8b0c4a2d9c6e4b1a"); ("status", PStr "ACTIVE")];
    [("_id", PObjectId "5f1d7f3e8b0c4a2d9c6e4b1b");
     ("parent", PObjectId "5f1d7f3e8b0c4a2d9c6e4b1a")] ].

Definition reachable : World := example_world None documents.

(** Two record sets of one record each, all of whose cells are scalars:
    the number 1 beside an empty text, and the text 1 beside [None]. *)
Definition blank_note : list dict := [ [("n", PInt 1); ("note", PStr "")] ].

Definition no_note : list dict := [ [("n", PStr "1"); ("note", PNone)] ].

Definition no_match : World := example_world None [].

Definition unreachable : World :=
  example_world (Some (ServerSelectionTimeoutError "db.invalid:27017: timed out")) documents.

Definition inputs (filter : string) (format : FileFormat) : Inputs :=
  {| mongo_uri := "mongodb://db.invalid:27017/";
     db_name := "effiser";
     col_name := "efsr_transactions_archive";
     filter_input := filter;
     file_format := format |}.

End Examples.

(** ** Further readings of a run and of a frame *)

Module Reading.

(** The exceptions the library calls of a run raised, in order. *)
Fixpoint raised (tr : list Event) : list exn :=
  match tr with
  | [] => []
  | Called _ (Some e) :: rest => e :: raised rest
  | _ :: rest => raised rest
  end.

(** The collection the script queries (lines 67, 73-74): the named
    collection of the named database of a client on the given URI, with a
    server selection timeout of 5000 ms. *)
Definition collection_of (inp : Inputs) : Collection :=
  {| col_database :=
       {| db_client := {| host := mongo_uri inp; serverSelectionTimeoutMS := 5000 |};
          database_name := db_name inp |};
     collection_name := col_name inp |}.

(** The same widgets with another choice of export format. *)
Definition with_format (inp : Inputs) (f : FileFormat) : Inputs :=
  {| mongo_uri := mongo_uri inp;
     db_name := db_name inp;
     col_name := col_name inp;
     filter_input := filter_input inp;
     file_format := f |}.

(** Every column of a frame has one cell per row of its index. *)
Definition aligned (df : DataFrame) : Prop :=
  Forall (fun col => List.length (snd col) = index df) (data df).

End Reading.
Import Reading.

(* ================================================================== *)
(** * Part II.  Properties                                             *)
(* ================================================================== *)

(** ** Runs of the script

    A run is decided by what the collaborators answer.  The proofs unfold
    the script into the tree of those answers and look at every branch. *)

Ltac unfold_script :=
  cbv beta iota zeta delta
    [main fetch_and_generate try_body parse_filter export finally_block handlers
     try_finally try_except call call_result mbind emit ret raise
     assign_client read_client dispatch app fst snd client trace] in *.

Ltac split_world :=
  repeat match goal with
    | |- context [match ?x with _ => _ end] =>
        lazymatch x with
        | context [match _ with _ => _ end] => fail
        | _ => destruct x eqn:?
        end
    | H : context [match ?x with _ => _ end] |- _ =>
        lazymatch x with
        | context [match _ with _ => _ end] => fail
        | _ => destruct x eqn:?
        end
    end.

(** Which event of a branch's trace a hypothesis [In ev trace] is about. *)
Ltac pick_event H :=
  cbn [In created] in H;
  repeat match type of H with
    | _ \/ _ => destruct H as [H | H]
    | False => destruct H
    end;
  try discriminate H; try (injection H as; subst); try subst.

(** [st.stop()]'s exception passes every [except] clause of the script. *)
Ltac stop_passes :=
  try match goal with
    | H : isinstance StopException _ = true |- _ => vm_compute in H; discriminate H
    end.

Ltac run_script H := unfold_script; split_world; pick_event H; stop_passes.

(** C1 (as amended).  When the decode of the filter raises, no connection
    is attempted, no query is issued and [client] stays unassigned.  If the
    exception is a [JSONDecodeError] the run is exactly: the decode, the
    FilterSyntax banner carrying the decoder's message, the log line and
    [st.stop()]; it ends there with [StopException].  Any other error of
    the decode (a malformed extended-type tag) is reported by the handlers
    of the outer [try] under the kind of its class, and the run ends
    normally. *)
Theorem decode_failure_never_connects (W : World) (inp : Inputs) (e : exn) :
  loads W (filter_input inp) = Raise e ->
  connection_attempts (trace (snd (main W inp))) = 0
  /\ queries (trace (snd (main W inp))) = []
  /\ client (snd (main W inp)) = None
  /\ (isinstance e "JSONDecodeError" = true ->
      main W inp =
        (Raise StopException,
         {| client := None;
            trace := [ Called (json_loads (filter_input inp)) (Some e);
                       st_error ("❌ Invalid JSON format in Filter Criteria: " ++ str_e e);
                       logging_error ("Invalid JSON input: " ++ str_e e);
                       st_stop ] |})
      /\ outcomes (trace (snd (main W inp)))
         = [Failure FilterSyntax ("❌ Invalid JSON format in Filter Criteria: " ++ str_e e)])
  /\ (isinstance e "JSONDecodeError" = false ->
      isinstance e "Exception" = true ->
      fst (main W inp) = Ok tt
      /\ exists body,
           outcomes (trace (snd (main W inp))) = [Failure (kind_of_class e) body]).
Proof.
  intros Hloads.
  unfold_script. rewrite Hloads.
  destruct (isinstance e "JSONDecodeError") eqn:Hjson.
  - split_world; stop_passes.
    repeat split; try reflexivity; intros; discriminate.
  - unfold kind_of_class.
    split_world; repeat split; try reflexivity; intros; try discriminate;
      eexists; reflexivity.
Qed.

(** C1 at scenario D of the spec: [{"status":}] is reported as a syntax
    failure and the run stops before any connection. *)
Lemma decode_failure_never_connects_witness :
  loads Examples.reachable Examples.broken_filter
    = Raise (JSONDecodeError "Expecting value: line 1 column 11 (char 10)")
  /\ connection_attempts
       (trace (snd (main Examples.reachable (Examples.inputs Examples.broken_filter CSV)))) = 0.
Proof.
  split; [ reflexivity | ].
  apply (decode_failure_never_connects Examples.reachable
           (Examples.inputs Examples.broken_filter CSV)
           (JSONDecodeError "Expecting value: line 1 column 11 (char 10)")).
  reflexivity.
Defined.

(** C1 as stated fails: the text [{"_id": {"$oid": "zz"}}] has a malformed
    extended-type tag, its decode raises bson's [InvalidId], and the run
    reports an Unclassified failure, not FilterSyntax. *)
Lemma malformed_tag_is_unclassified :
  loads Examples.reachable Examples.bad_oid_filter
    = Raise (Examples.InvalidId
               "'zz' is not a valid ObjectId, it must be a 12-byte input or a 24-character hex string")
  /\ outcomes (trace (snd (main Examples.reachable
                                 (Examples.inputs Examples.bad_oid_filter CSV))))
     = [Failure Unclassified
          "❌ An unexpected error occurred: 'zz' is not a valid ObjectId, it must be a 12-byte input or a 24-character hex string"]
  /\ fst (main Examples.reachable (Examples.inputs Examples.bad_oid_filter CSV)) = Ok tt.
Proof. repeat split; vm_compute; reflexivity. Qed.

(** C2.  On a run that created a connection handle, that handle is closed
    exactly once, after its creation, whatever happened in between: the
    handles closed over the whole run, and over the part of the run that
    follows the creation, are that one handle. *)
Theorem handle_closed_exactly_once (W : World) (inp : Inputs) (c : MongoClient) :
  In c (created (trace (snd (main W inp)))) ->
  closed (trace (snd (main W inp))) = [c]
  /\ closed (after_creation (trace (snd (main W inp)))) = [c].
Proof.
  intros Hcreated.
  run_script Hcreated; split; reflexivity.
Qed.

Lemma handle_closed_exactly_once_witness :
  closed (trace (snd (main Examples.unreachable
                            (Examples.inputs Examples.active_filter CSV))))
  = [ {| host := "mongodb://db.invalid:27017/"; serverSelectionTimeoutMS := 5000 |} ].
Proof.
  apply (handle_closed_exactly_once Examples.unreachable
           (Examples.inputs Examples.active_filter CSV)).
  vm_compute. left. reflexivity.
Defined.

(** C4.  An error (an instance of [Exception]) raised by any call of a run
    is shown as exactly one failure, of the kind the error belongs to:
    FilterSyntax for a JSON decode error of the filter, ConnectionTimeout for
    a server selection timeout, AuthorizationFailure for an operation
    failure, Unclassified otherwise.  The error does not leave the script:
    the run ends normally, or, after a FilterSyntax failure, by [st.stop()].
    The kinds are told apart by the banner: [outcomes] reads the kind back
    from it. *)
Theorem errors_are_classified (W : World) (inp : Inputs) (site : Call) (e : exn) :
  In (Called site (Some e)) (trace (snd (main W inp))) ->
  isinstance e "Exception" = true ->
  (exists body, outcomes (trace (snd (main W inp))) = [Failure (classify site e) body])
  /\ (fst (main W inp) = Ok tt
      \/ classify site e = FilterSyntax /\ fst (main W inp) = Raise StopException).
Proof.
  intros Hraised Herror.
  run_script Hraised; try congruence.
  all: unfold classify, kind_of_class.
  all: repeat match goal with H : isinstance _ _ = _ |- _ => rewrite H end.
  all: split; [ eexists; reflexivity | auto ].
Qed.

(** C4 at scenario C of the spec: an unreachable host. *)
Lemma errors_are_classified_witness :
  exists body,
    outcomes (trace (snd (main Examples.unreachable
                                (Examples.inputs Examples.active_filter Excel))))
    = [Failure ConnectionTimeout body].
Proof.
  apply (errors_are_classified Examples.unreachable
           (Examples.inputs Examples.active_filter Excel)
           (server_info {| host := "mongodb://db.invalid:27017/";
                           serverSelectionTimeoutMS := 5000 |})
           (Examples.ServerSelectionTimeoutError "db.invalid:27017: timed out")).
  - vm_compute. do 3 right. left. reflexivity.
  - reflexivity.
Defined.

(** C5.  When the query is issued and returns no record, the run shows the
    EmptyResult outcome and nothing else: no failure and no download (so no
    table with no rows either), and it ends normally.  EmptyResult is an
    outcome of its own, different from every failure. *)
Theorem empty_result_is_its_own_outcome (W : World) (inp : Inputs)
    (col : Collection) (query : pyval) :
  In (Called (find col query) None) (trace (snd (main W inp))) ->
  find_list W col query = Ok [] ->
  outcomes (trace (snd (main W inp))) = [EmptyResult]
  /\ fst (main W inp) = Ok tt
  /\ forall kind message, In (Failure kind message) (outcomes (trace (snd (main W inp)))) -> False.
Proof.
  intros Hfind Hempty.
  run_script Hfind; try congruence.
  all: repeat split; try reflexivity.
  all: cbn; intros kind message [H | []]; discriminate H.
Qed.

(** C5 at scenario B of the spec: no document matches. *)
Lemma empty_result_is_its_own_outcome_witness :
  outcomes (trace (snd (main Examples.no_match
                              (Examples.inputs Examples.active_filter CSV))))
  = [EmptyResult].
Proof.
  apply (empty_result_is_its_own_outcome Examples.no_match
           (Examples.inputs Examples.active_filter CSV)
           {| col_database :=
                {| db_client := {| host := "mongodb://db.invalid:27017/";
                                   serverSelectionTimeoutMS := 5000 |};
                   database_name := "effiser" |};
              collection_name := "efsr_transactions_archive" |}
           (PDict [("status", PStr "ACTIVE")])).
  - vm_compute. do 8 right. left. reflexivity.
  - reflexivity.
Defined.

(** *** The scenarios of the spec (§8), run *)

(** Scenario D: [{"status":}] stops the run at the filter. *)
Example scenario_D_stops_at_the_filter :
  main Examples.reachable (Examples.inputs Examples.broken_filter CSV)
  = (Raise StopException,
     {| client := None;
        trace :=
          [ Called (json_loads Examples.broken_filter)
                   (Some (JSONDecodeError "Expecting value: line 1 column 11 (char 10)"));
            st_error "❌ Invalid JSON format in Filter Criteria: Expecting value: line 1 column 11 (char 10)";
            logging_error "Invalid JSON input: Expecting value: line 1 column 11 (char 10)";
            st_stop ] |}).
Proof. vm_compute. reflexivity. Qed.

(** Scenarios A and E: the matching documents are offered as a CSV file in
    which the [_id] column is text; the identifier in [parent] is text there
    too, but only because the writer prints every cell. *)
Example scenario_A_offers_the_csv :
  outcomes (trace (snd (main Examples.reachable
                              (Examples.inputs Examples.active_filter CSV))))
  = [ Success
        {| payload :=
             {| Io.getvalue :=
                  list_ascii_of_string
                    ("_id,status,parent" ++ Examples.nl
                     ++ "5f1d7f3e8b0c4a2d9c6e4b1a,ACTIVE," ++ Examples.nl
                     ++ "5f1d7f3e8b0c4a2d9c6e4b1b,,5f1d7f3e8b0c4a2d9c6e4b1a" ++ Examples.nl);
                Io.tell := 0 |};
           content_type := "text/csv";
           filename := "mongo_export.csv" |} ].
Proof. vm_compute. reflexivity. Qed.

(** The same run with format Excel: the bytes openpyxl saved, under the
    spreadsheet content type. *)
Example scenario_A_offers_the_workbook :
  outcomes (trace (snd (main Examples.reachable
                              (Examples.inputs Examples.active_filter Excel))))
  = [ Success
        {| payload := {| Io.getvalue := ["P"%char; "K"%char]; Io.tell := 0 |};
           content_type :=
             "application/vnd.openxmlformats-officedocument.spreadsheetml.sheet";
           filename := "mongo_export.xlsx" |} ].
Proof. vm_compute. reflexivity. Qed.

(** Scenario C: an unreachable host is a ConnectionTimeout failure, and the
    handle is closed. *)
Example scenario_C_times_out :
  outcomes (trace (snd (main Examples.unreachable
                              (Examples.inputs Examples.active_filter CSV))))
  = [ Failure ConnectionTimeout
        "❌ Connection Timeout: Could not connect to MongoDB host. Check your VPN or Host settings." ]
  /\ fst (main Examples.unreachable (Examples.inputs Examples.active_filter CSV)) = Ok tt.
Proof. split; vm_compute; reflexivity. Qed.

(** ** The extended decode *)

Lemma bind_ok {A B} (r : result A) (k : A -> result B) (b : B) :
  bind r k = Ok b -> exists a, r = Ok a /\ k a = Ok b.
Proof. destruct r as [a | e]; simpl; intros H; [ eauto | discriminate ]. Qed.

Lemma dict_set_rel (R : pyval -> pyval -> Prop) d d' k v v' :
  Forall2 (entry_rel R) d d' -> R v v' ->
  Forall2 (entry_rel R) (dict_set d k v) (dict_set d' k v').
Proof.
  intros Hd Hv. induction Hd as [| [k1 v1] [k2 v2] d d' [Hk Hr] Hd IH]; simpl.
  - constructor; [ split; auto | constructor ].
  - simpl in Hk, Hr. subst k2. destruct (String.eqb k k1).
    + constructor; [ split; auto | assumption ].
    + constructor; [ split; auto | assumption ].
Qed.

(** [dict(pairs)] keeps entries in relation: which entry a key overwrites
    depends on the keys alone. *)
Lemma dict_of_pairs_rel (R : pyval -> pyval -> Prop) ps ps' :
  Forall2 (entry_rel R) ps ps' ->
  Forall2 (entry_rel R) (dict_of_pairs ps) (dict_of_pairs ps').
Proof.
  unfold dict_of_pairs.
  assert (G : forall acc acc', Forall2 (entry_rel R) acc acc' ->
              Forall2 (entry_rel R) ps ps' ->
              Forall2 (entry_rel R)
                (fold_left (fun d kv => dict_set d (fst kv) (snd kv)) ps acc)
                (fold_left (fun d kv => dict_set d (fst kv) (snd kv)) ps' acc')).
  { intros acc acc' Hacc Hps. revert acc acc' Hacc.
    induction Hps as [| kv kv' ps ps' [Hk Hr] Hps IH]; intros acc acc' Hacc; simpl.
    - assumption.
    - apply IH. rewrite Hk. apply dict_set_rel; assumption. }
  intros H. apply G; [ constructor | assumption ].
Qed.

Lemma keys_rel (R : pyval -> pyval -> Prop) (d d' : dict) :
  Forall2 (entry_rel R) d d' -> keys d = keys d'.
Proof.
  unfold keys. induction 1 as [| kv kv' d d' [Hk _] _ IH]; simpl; congruence.
Qed.

(** *** The hook's lookup finds the tag the spec speaks of *)

Section Lookup.
Local Open Scope list_scope.
Variable table : parsers.

Lemma parser_of_none (t : string) :
  parser_of table t = None -> ~ is_tag table t.
Proof.
  unfold is_tag. induction table as [| [t0 c0] rest IH]; simpl.
  - intros _ (c & []).
  - destruct (String.eqb_spec t t0) as [-> | Hne]; [ discriminate | ].
    intros Hnone (c & [Heq | Hin]).
    + injection Heq as Heq _. congruence.
    + apply IH; eauto.
Qed.

Lemma parser_of_some (t : string) (conv : dict -> result pyval) :
  parser_of table t = Some conv ->
  exists pre post, table = pre ++ (t, conv) :: post /\ forall c, ~ In (t, c) pre.
Proof.
  induction table as [| [t0 c0] rest IH]; simpl; [ discriminate | ].
  destruct (String.eqb_spec t t0) as [-> | Hne].
  - intros H. injection H as <-. exists [], rest. split; [ reflexivity | intros c [] ].
  - intros H. destruct (IH H) as (pre & post & -> & Hpre).
    exists ((t0, c0) :: pre), post. split; [ reflexivity | ].
    intros c [Heq | Hin]; [ injection Heq as Heq _; congruence | exact (Hpre c Hin) ].
Qed.

Lemma first_tag_none (ks : list string) :
  first_tag table ks = None -> forall k, In k ks -> ~ is_tag table k.
Proof.
  induction ks as [| k0 ks IH]; simpl; [ intros _ k [] | ].
  destruct (parser_of table k0) eqn:Hk0; [ discriminate | ].
  intros Hnone k [<- | Hin]; [ apply parser_of_none; assumption | apply IH; assumption ].
Qed.

Lemma first_tag_some (ks : list string) (conv : dict -> result pyval) :
  first_tag table ks = Some conv ->
  exists t before after,
    ks = before ++ t :: after
    /\ (forall k, In k before -> ~ is_tag table k)
    /\ parser_of table t = Some conv.
Proof.
  induction ks as [| k0 ks IH]; simpl; [ discriminate | ].
  destruct (parser_of table k0) as [c0 |] eqn:Hk0.
  - intros H. injection H as <-. exists k0, [], ks.
    split; [ reflexivity | split; [ intros k [] | assumption ] ].
  - intros H. destruct (IH H) as (t & before & after & -> & Hbefore & Ht).
    exists t, (k0 :: before), after. split; [ reflexivity | split; [ | assumption ] ].
    intros k [<- | Hin]; [ apply parser_of_none; assumption | apply Hbefore; assumption ].
Qed.

(** What [recognized] returns is the conversion of the mapping's tag. *)
Lemma recognized_some (d : dict) (conv : dict -> result pyval) :
  recognized table d = Some conv -> exists t, tag_of table d t conv.
Proof.
  unfold recognized. intros H.
  destruct (first_tag_some _ _ H) as (t & before & after & Hkeys & Hbefore & Ht).
  exists t. split; [ eauto | apply parser_of_some; assumption ].
Qed.

Lemma recognized_none (d : dict) :
  recognized table d = None -> untagged table d.
Proof. unfold recognized, untagged. apply first_tag_none. Qed.

(** *** A mapping has one tag at most, and one conversion *)

Lemma first_split_unique {A} (P : A -> Prop) (b1 b2 a1 a2 : list A) (x1 x2 : A) :
  b1 ++ x1 :: a1 = b2 ++ x2 :: a2 ->
  (forall y, In y b1 -> ~ P y) -> (forall y, In y b2 -> ~ P y) ->
  P x1 -> P x2 ->
  b1 = b2 /\ x1 = x2 /\ a1 = a2.
Proof.
  revert b2. induction b1 as [| y b1 IH]; intros [| z b2] Heq H1 H2 Hx1 Hx2; simpl in Heq.
  - injection Heq as -> ->. auto.
  - injection Heq as -> _. exfalso. apply (H2 z); [ left; reflexivity | assumption ].
  - injection Heq as -> _. exfalso. apply (H1 x2); [ left; reflexivity | assumption ].
  - injection Heq as -> Heq.
    destruct (IH b2 Heq) as (-> & -> & ->); auto.
    + intros y' Hy'. apply H1. right. assumption.
    + intros y' Hy'. apply H2. right. assumption.
Qed.

Lemma tag_of_is_tag (d : dict) (t : string) (conv : dict -> result pyval) :
  tag_of table d t conv -> is_tag table t /\ In t (keys d).
Proof.
  intros [(before & after & Hkeys & _) (pre & post & Htable & _)]. split.
  - exists conv. rewrite Htable. apply in_elt.
  - rewrite Hkeys. apply in_elt.
Qed.

Lemma tag_of_unique (d : dict) t1 conv1 t2 conv2 :
  tag_of table d t1 conv1 -> tag_of table d t2 conv2 -> t1 = t2 /\ conv1 = conv2.
Proof.
  intros H1 H2.
  destruct (tag_of_is_tag _ _ _ H1) as [Htag1 _].
  destruct (tag_of_is_tag _ _ _ H2) as [Htag2 _].
  destruct H1 as [(b1 & a1 & Hk1 & Hb1) (p1 & q1 & Ht1 & Hp1)].
  destruct H2 as [(b2 & a2 & Hk2 & Hb2) (p2 & q2 & Ht2 & Hp2)].
  rewrite Hk1 in Hk2.
  destruct (first_split_unique (is_tag table) _ _ _ _ _ _ Hk2 Hb1 Hb2 Htag1 Htag2)
    as (_ & <- & _).
  split; [ reflexivity | ].
  rewrite Ht1 in Ht2.
  destruct (first_split_unique (fun e => fst e = t1) _ _ _ _ _ _ Ht2) as (_ & Heq & _).
  - intros [k c] Hin Hfst. simpl in Hfst. subst k. exact (Hp1 c Hin).
  - intros [k c] Hin Hfst. simpl in Hfst. subst k. exact (Hp2 c Hin).
  - reflexivity.
  - reflexivity.
  - congruence.
Qed.

End Lookup.

Section Extended.
Variable table : parsers.
Local Abbreviation hook := (json_util_object_hook table).

Lemma extended_elements (l : list json) :
  Forall (fun j => forall s, decode no_hook j = Ok s -> well_tagged table j ->
                   exists v, decode hook j = Ok v /\ extended table s v) l ->
  forall ss, traverse (decode no_hook) l = Ok ss ->
  fold_right (fun x rest => well_tagged table x /\ rest) True l ->
  exists vs, traverse (decode hook) l = Ok vs /\ Forall2 (extended table) ss vs.
Proof.
  induction 1 as [| j l Hj _ IH]; intros ss Hss Hwt; simpl in *.
  - injection Hss as <-. exists []. split; [ reflexivity | constructor ].
  - apply bind_ok in Hss as (s & Hs & Hss).
    apply bind_ok in Hss as (ss' & Hss' & Hss).
    injection Hss as <-. destruct Hwt as [Hwj Hwl].
    destruct (Hj s Hs Hwj) as (v & Hv & Hsv).
    destruct (IH ss' Hss' Hwl) as (vs & Hvs & Hall).
    exists (v :: vs). rewrite Hv, Hvs. split; [ reflexivity | constructor; assumption ].
Qed.

Lemma extended_members (m : list (string * json)) :
  Forall (fun kx => forall s, decode no_hook (snd kx) = Ok s -> well_tagged table (snd kx) ->
                    exists v, decode hook (snd kx) = Ok v /\ extended table s v) m ->
  forall ps, decode_members no_hook m = Ok ps ->
  fold_right (fun kx rest => well_tagged table (snd kx) /\ rest) True m ->
  exists pvs, decode_members hook m = Ok pvs /\ Forall2 (entry_rel (extended table)) ps pvs.
Proof.
  unfold decode_members.
  induction 1 as [| [k j] m Hj _ IH]; intros ps Hps Hwt; simpl in *.
  - injection Hps as <-. exists []. split; [ reflexivity | constructor ].
  - apply bind_ok in Hps as (p & Hp & Hps).
    apply bind_ok in Hp as (s & Hs & Hp). injection Hp as <-.
    apply bind_ok in Hps as (ps' & Hps' & Hps).
    injection Hps as <-. destruct Hwt as [Hwj Hwl].
    destruct (Hj s Hs Hwj) as (v & Hv & Hsv).
    destruct (IH ps' Hps' Hwl) as (pvs & Hpvs & Hall).
    exists ((k, v) :: pvs). rewrite Hv. simpl. rewrite Hpvs. simpl.
    split; [ reflexivity | constructor; [ split; auto | assumption ] ].
Qed.

(** On a tree the standard decode accepts and whose tags are well formed,
    the decode with bson's hook returns the standard result, extended. *)
Lemma extended_decode (j : json) :
  forall s, decode no_hook j = Ok s -> well_tagged table j ->
  exists v, decode hook j = Ok v /\ extended table s v.
Proof.
  induction j as [ | | | z | f | s0 | l IH | m IH | msg ] using json_tree_ind;
    intros s Hs Hwt; simpl in Hs;
    try (injection Hs as <-; eexists; split; [ reflexivity | constructor ]).
  - apply bind_ok in Hs as (ss & Hss & Hs). injection Hs as <-.
    destruct (extended_elements l IH ss Hss Hwt) as (vs & Hvs & Hall).
    exists (PList vs). simpl. rewrite Hvs. split; [ reflexivity | constructor; assumption ].
  - apply bind_ok in Hs as (ps & Hps & Hs). injection Hs as <-.
    destruct Hwt as [Hwm Hconv].
    destruct (extended_members m IH ps Hps Hwm) as (pvs & Hpvs & Hall).
    pose proof (dict_of_pairs_rel (extended table) _ _ Hall) as Hdict.
    pose proof (keys_rel _ _ _ Hdict) as Hkeys.
    simpl. fold (decode_members hook m). rewrite Hpvs. simpl.
    unfold json_util_object_hook at 1.
    destruct (recognized table (dict_of_pairs pvs)) as [conv |] eqn:Htag.
    + apply recognized_some in Htag as (t & Htag).
      assert (Htag' : tag_of table (dict_of_pairs ps) t conv).
      { unfold tag_of in *. rewrite Hkeys. exact Htag. }
      destruct (Hconv ps pvs t conv Hps Hall Htag') as (v & Hv).
      exists v. split; [ assumption | eapply ext_tagged; eassumption ].
    + apply recognized_none in Htag.
      eexists. split; [ reflexivity | ]. apply ext_plain; [ assumption | ].
      unfold untagged in *. rewrite Hkeys. exact Htag.
  - discriminate.
Qed.

Lemma extended_items_unique (l l1 l2 : list pyval) :
  Forall (fun s => forall v1 v2, extended table s v1 -> extended table s v2 -> v1 = v2) l ->
  Forall2 (extended table) l l1 ->
  Forall2 (extended table) l l2 ->
  l1 = l2.
Proof.
  intros IH H1. revert l2.
  induction H1 as [| x y l l1 Hxy _ IHl]; intros l2 H2; inversion H2; subst.
  - reflexivity.
  - inversion IH; subst. f_equal; eauto.
Qed.

Lemma extended_entries_unique (d d1 d2 : dict) :
  Forall (fun kv => forall v1 v2, extended table (snd kv) v1 ->
                      extended table (snd kv) v2 -> v1 = v2) d ->
  Forall2 (entry_rel (extended table)) d d1 ->
  Forall2 (entry_rel (extended table)) d d2 ->
  d1 = d2.
Proof.
  intros IH H1. revert d2.
  induction H1 as [| [k v] [k1 v1] d d1 [Hk1 Hv1] _ IHd]; intros d2 H2; inversion H2; subst.
  - reflexivity.
  - inversion IH; subst. simpl in *.
    match goal with H : entry_rel _ _ ?y |- _ => destruct y as [k2 v2]; destruct H as [Hk2 Hv2] end.
    simpl in *. subst. f_equal; [ f_equal; eauto | eauto ].
Qed.

(** The standard decode has one extended reading at most. *)
Lemma extended_unique (s : pyval) :
  forall v1 v2, extended table s v1 -> extended table s v2 -> v1 = v2.
Proof.
  induction s as [ | b | z | r | s0 | h | n p | l IH | d IH ] using pyval_tree_ind;
    intros v1 v2 H1 H2; inversion H1; subst; inversion H2; subst; try reflexivity.
  - f_equal. eapply extended_items_unique; eassumption.
  - f_equal. eapply extended_entries_unique; eassumption.
  - exfalso.
    match goal with
    | Hu : untagged _ _, Ht : tag_of _ _ _ _ |- _ =>
        destruct (tag_of_is_tag _ _ _ _ Ht) as [Histag Hin]; exact (Hu _ Hin Histag)
    end.
  - exfalso.
    match goal with
    | Hu : untagged _ _, Ht : tag_of _ _ _ _ |- _ =>
        destruct (tag_of_is_tag _ _ _ _ Ht) as [Histag Hin]; exact (Hu _ Hin Histag)
    end.
  - match goal with
    | Ha : Forall2 _ d ?d1, Hb : Forall2 _ d ?d2,
      Hta : tag_of _ d ?t1 ?c1, Htb : tag_of _ d ?t2 ?c2 |- _ =>
        assert (d1 = d2) by (eapply extended_entries_unique; eassumption);
        destruct (tag_of_unique _ _ _ _ _ _ Hta Htb) as [-> ->]; subst
    end.
    congruence.
Qed.

End Extended.

(** C3.  For a filter text that is well-formed JSON (the standard decode
    returns [s]) and whose extended-type tags are well formed, the parse
    returns a document [v], and [v] is [s] except that every sub-object
    carrying a recognized tag is the native value of that tag's conversion;
    every other sub-object, an unrecognized tag included, is the plain
    nested mapping.  [v] is the only such reading of [s]. *)
Theorem parse_extends_standard_decode (W : World) (text : string) (s : pyval) :
  decode_document no_hook (scan W text) = Ok s ->
  well_tagged (PARSERS W) (value (scan W text)) ->
  exists v,
    loads W text = Ok v
    /\ extended (PARSERS W) s v
    /\ forall v', extended (PARSERS W) s v' -> v' = v.
Proof.
  unfold loads, decode_document. intros Hs Hwt.
  apply bind_ok in Hs as (s' & Hs' & Hs).
  destruct (extended_decode (PARSERS W) _ s' Hs' Hwt) as (v & Hv & Hsv).
  rewrite Hv. simpl. destruct (extra_data (scan W text)); [ discriminate | ].
  injection Hs as <-. exists v. split; [ reflexivity | split; [ assumption | ] ].
  intros v' Hv'. eapply extended_unique; eassumption.
Qed.

(** The conversion the spec's [tag_of] names is the one the lookup finds. *)
Lemma tag_of_recognized (table : parsers) (d : dict) (t : string)
    (conv : dict -> result pyval) :
  tag_of table d t conv -> recognized table d = Some conv.
Proof.
  intros Htag. destruct (recognized table d) as [c |] eqn:Hrec.
  - apply recognized_some in Hrec as (t' & Htag').
    destruct (tag_of_unique _ _ _ _ _ _ Htag Htag') as [_ ->]. reflexivity.
  - apply recognized_none in Hrec.
    destruct (tag_of_is_tag _ _ _ _ Htag) as [Histag Hin].
    exfalso. exact (Hrec _ Hin Histag).
Qed.

(** C3 on a text with a recognized and an unrecognized tag: the [$oid]
    object becomes the [ObjectId], the [$ref] object stays a mapping. *)
Lemma parse_extends_standard_decode_witness :
  (exists v,
      loads Examples.reachable Examples.oid_filter = Ok v
      /\ extended (PARSERS Examples.reachable)
           (PDict [("_id", PDict [("$oid", PStr "5f1d7f3e8b0c4a2d9c6e4b1a")]);
                   ("ref", PDict [("$ref", PStr "jobs")])])
           v
      /\ forall v',
           extended (PARSERS Examples.reachable)
             (PDict [("_id", PDict [("$oid", PStr "5f1d7f3e8b0c4a2d9c6e4b1a")]);
                     ("ref", PDict [("$ref", PStr "jobs")])])
             v' -> v' = v)
  /\ loads Examples.reachable Examples.oid_filter
     = Ok (PDict [("_id", PObjectId "5f1d7f3e8b0c4a2d9c6e4b1a");
                  ("ref", PDict [("$ref", PStr "jobs")])]).
Proof.
  split; [ | reflexivity ].
  apply (parse_extends_standard_decode Examples.reachable Examples.oid_filter).
  - reflexivity.
  - simpl. repeat split; intros pairs pairs' t conv Hpairs Hrel Htag;
      vm_compute in Hpairs; injection Hpairs as <-;
      apply tag_of_recognized in Htag; vm_compute in Htag; try discriminate Htag;
      injection Htag as <-.
    inversion Hrel as [| kv [k' v'] rest rest' [Hk Hv] Hrest]; subst.
    inversion Hrest; subst. simpl in Hk, Hv. subst k'. inversion Hv; subst.
    eexists. reflexivity.
Defined.

Example loads_oid_filter :
  loads Examples.reachable Examples.oid_filter
  = Ok (PDict [("_id", PObjectId "5f1d7f3e8b0c4a2d9c6e4b1a");
               ("ref", PDict [("$ref", PStr "jobs")])]).
Proof. reflexivity. Qed.

(** The relation is no identity: the only extended reading of a mapping
    tagged [$oid] is the [ObjectId], and a mapping with an unlisted tag has
    only itself. *)
Example extended_converts_the_tag (v : pyval) :
  extended [("$oid", Examples.parse_canonical_oid)]
    (PDict [("$oid", PStr "5f1d7f3e8b0c4a2d9c6e4b1a")]) v ->
  v = PObjectId "5f1d7f3e8b0c4a2d9c6e4b1a".
Proof.
  intros H. eapply extended_unique; [ exact H | ].
  eapply ext_tagged with (d' := [("$oid", PStr "5f1d7f3e8b0c4a2d9c6e4b1a")]).
  - constructor; [ split; [ reflexivity | constructor ] | constructor ].
  - split.
    + exists [], []. split; [ reflexivity | intros k [] ].
    + exists [], []. split; [ reflexivity | intros c [] ].
  - reflexivity.
Qed.

Example extended_keeps_an_unlisted_tag (v : pyval) :
  extended [("$oid", Examples.parse_canonical_oid)] (PDict [("$ref", PStr "jobs")]) v ->
  v = PDict [("$ref", PStr "jobs")].
Proof.
  intros H. eapply extended_unique; [ exact H | ].
  apply ext_plain.
  - constructor; [ split; [ reflexivity | constructor ] | constructor ].
  - intros k [<- | []] (c & [Hc | []]). discriminate Hc.
Qed.

(** ** Delimited text: what is written is read back *)

Section CsvRoundTrip.
Import Csv.
Local Open Scope list_scope.

Lemma special_false (c : ascii) :
  special c = false ->
  Ascii.eqb c comma = false /\ Ascii.eqb c dquote = false /\ is_eol c = false.
Proof.
  unfold special, is_eol. intros H.
  repeat (apply orb_false_elim in H as [H ?]).
  repeat split; try assumption. apply orb_false_intro; assumption.
Qed.

(** Bytes that need no quotes extend the field being read. *)
Lemma run_plain (f : bytes) :
  forall s rest,
    at_ s = InField -> needs_quotes f = false ->
    run s (f ++ rest) = run (State InField (rev f ++ field s) (record s)) rest.
Proof.
  induction f as [| c f IH]; intros s rest Hat Hplain; simpl.
  - destruct s; simpl in *; subst; reflexivity.
  - simpl in Hplain. apply orb_false_elim in Hplain as [Hc Hf].
    apply special_false in Hc as (Hcomma & _ & Heol).
    unfold step. rewrite Hat, Heol, Hcomma. simpl.
    rewrite IH by (simpl; auto). simpl. rewrite <- app_assoc. reflexivity.
Qed.

(** A quoted field is read up to its closing quote. *)
Lemma run_quoted (f : bytes) :
  forall s rest,
    at_ s = InQuotedField ->
    run s (double_quotes f ++ dquote :: rest)
    = run (State QuoteInQuotedField (rev f ++ field s) (record s)) rest.
Proof.
  induction f as [| c f IH]; intros s rest Hat; simpl.
  - unfold step. rewrite Hat. simpl. reflexivity.
  - destruct (Ascii.eqb c dquote) eqn:Hc; simpl.
    + apply Ascii.eqb_eq in Hc. subst c.
      unfold step at 1. rewrite Hat. simpl.
      rewrite IH by reflexivity. simpl. rewrite <- app_assoc. reflexivity.
    + unfold step at 1. rewrite Hat, Hc. simpl.
      rewrite IH by reflexivity. simpl. rewrite <- app_assoc. reflexivity.
Qed.

(** A written field followed by a comma is read as that field. *)
Lemma read_field_comma (f : bytes) (s : state) (rest : bytes) :
  at_field_start s ->
  run s (write_field f ++ comma :: rest) = run (State StartField [] (f :: record s)) rest.
Proof.
  intros [Hat Hfield]. unfold write_field.
  destruct (needs_quotes f) eqn:Hq.
  - simpl.
    assert (Hstep : step s dquote = (State InQuotedField [] (record s), [])).
    { unfold step. destruct Hat as [-> | [-> _]];
        unfold step_record, step_field; simpl; rewrite Hfield; reflexivity. }
    rewrite Hstep. simpl. rewrite <- app_assoc. simpl.
    rewrite run_quoted by reflexivity. simpl.
    unfold save_field, end_record, close_record; simpl.
    rewrite app_nil_r, rev_involutive. reflexivity.
  - destruct f as [| c f]; simpl.
    + unfold step. destruct s as [m fl rc]; simpl in *; subst fl.
      destruct Hat as [-> | [-> _]]; reflexivity.
    + simpl in Hq. apply orb_false_elim in Hq as [Hc Hf].
      apply special_false in Hc as (Hcomma & Hdq & Heol).
      assert (Hstep : step s c = (State InField [c] (record s), [])).
      { unfold step. destruct Hat as [-> | [-> _]];
          unfold step_record, step_field, add_char; rewrite Heol, Hdq, Hcomma, Hfield;
          reflexivity. }
      rewrite Hstep. simpl. rewrite run_plain by (simpl; auto). simpl.
      unfold save_field, end_record, close_record; simpl.
      rewrite rev_app_distr, rev_involutive. reflexivity.
Qed.

(** A written field followed by the line feed ends the record, unless it
    is the lone empty field of a record (which is written otherwise). *)
Lemma read_field_lf (f : bytes) (s : state) (rest : bytes) :
  at_field_start s ->
  (at_ s = StartRecord -> f <> []) ->
  run s (write_field f ++ lf :: rest) = rev (f :: record s) :: run start rest.
Proof.
  intros [Hat Hfield] Hlone. unfold write_field.
  destruct (needs_quotes f) eqn:Hq.
  - simpl.
    assert (Hstep : step s dquote = (State InQuotedField [] (record s), [])).
    { unfold step. destruct Hat as [-> | [-> _]];
        unfold step_record, step_field; simpl; rewrite Hfield; reflexivity. }
    rewrite Hstep. simpl. rewrite <- app_assoc. simpl.
    rewrite run_quoted by reflexivity. simpl.
    unfold save_field, end_record, close_record; simpl.
    rewrite app_nil_r, rev_involutive. reflexivity.
  - destruct f as [| c f]; simpl.
    + destruct s as [m fl rc]; simpl in *; subst fl.
      destruct Hat as [-> | [-> _]]; [ reflexivity | ].
      exfalso. apply Hlone; reflexivity.
    + simpl in Hq. apply orb_false_elim in Hq as [Hc Hf].
      apply special_false in Hc as (Hcomma & Hdq & Heol).
      assert (Hstep : step s c = (State InField [c] (record s), [])).
      { unfold step. destruct Hat as [-> | [-> _]];
          unfold step_record, step_field, add_char; rewrite Heol, Hdq, Hcomma, Hfield;
          reflexivity. }
      rewrite Hstep. simpl. rewrite run_plain by (simpl; auto). simpl.
      unfold save_field, end_record, close_record; simpl.
      rewrite rev_app_distr, rev_involutive. reflexivity.
Qed.

(** The fields after the first one of a record. *)
Lemma read_more_fields (fields : list bytes) :
  forall f s rest,
    at_ s = StartField -> field s = [] ->
    run s (join_fields (f :: fields) ++ lf :: rest)
    = rev (rev (f :: fields) ++ record s) :: run start rest.
Proof.
  induction fields as [| g fields IH]; intros f s rest Hat Hfield.
  - simpl join_fields. rewrite read_field_lf.
    + reflexivity.
    + split; auto.
    + rewrite Hat. discriminate.
  - change (join_fields (f :: g :: fields))
      with (write_field f ++ comma :: join_fields (g :: fields)).
    rewrite <- app_assoc, <- app_comm_cons.
    rewrite read_field_comma by (split; auto).
    rewrite IH by reflexivity. simpl record.
    f_equal. f_equal. simpl. repeat rewrite <- app_assoc. reflexivity.
Qed.

(** One written record is read back as that record. *)
Lemma read_writerow (fields : list bytes) (rest : bytes) :
  run start (writerow fields ++ rest) = fields :: run start rest.
Proof.
  destruct fields as [| f [| g fields]].
  - reflexivity.
  - destruct f as [| c f].
    + reflexivity.
    + unfold writerow. simpl join_fields. rewrite <- app_assoc. simpl app at 2.
      rewrite read_field_lf.
      * reflexivity.
      * split; [ right; split; reflexivity | reflexivity ].
      * discriminate.
  - replace (writerow (f :: g :: fields))
      with (write_field f ++ comma :: join_fields (g :: fields) ++ [lf]).
    2:{ unfold writerow. destruct f; simpl; rewrite <- ?app_assoc; reflexivity. }
    rewrite <- app_assoc, <- app_comm_cons, <- app_assoc.
    change ([lf] ++ rest) with (lf :: rest).
    rewrite read_field_comma by (split; [ right; split; reflexivity | reflexivity ]).
    rewrite read_more_fields by reflexivity.
    simpl. rewrite rev_app_distr. simpl. rewrite rev_app_distr, rev_involutive. reflexivity.
Qed.

Lemma reader_writerows (rows : list (list bytes)) :
  reader (writerows rows) = rows.
Proof.
  unfold reader, writerows.
  induction rows as [| fields rows IH]; simpl.
  - reflexivity.
  - rewrite read_writerow. rewrite IH. reflexivity.
Qed.

End CsvRoundTrip.

(** The writer and the reader on a table with a comma, a quote, an empty
    cell and a lone empty cell; the reader on text with CRLF line ends. *)
Example writerows_quotes :
  string_of_list_ascii
    (Csv.writerows (map (map list_ascii_of_string)
                    [ ["a,b"; "say " ++ Examples.q ++ "hi" ++ Examples.q; ""]; [""] ]))
  = Examples.q ++ "a,b" ++ Examples.q ++ ","
    ++ Examples.q ++ "say " ++ Examples.q ++ Examples.q ++ "hi" ++ Examples.q ++ Examples.q
    ++ Examples.q ++ "," ++ Examples.nl
    ++ Examples.q ++ Examples.q ++ Examples.nl.
Proof. vm_compute. reflexivity. Qed.

Example reader_reads_crlf :
  Csv.read_table (list_ascii_of_string
                ("name,note" ++ Examples.crlf
                 ++ "x," ++ Examples.q ++ "1,5" ++ Examples.q ++ Examples.crlf
                 ++ "y,"))
  = Some (["name"; "note"], [ ["x"; "1,5"]; ["y"; ""] ]).
Proof. vm_compute. reflexivity. Qed.

(** ** Frames *)

Section Frames.
Local Open Scope list_scope.

Lemma existsb_eqb_In (k : string) (u : list string) :
  existsb (String.eqb k) u = true <-> In k u.
Proof.
  rewrite existsb_exists. split.
  - intros (x & Hx & Heq). apply String.eqb_eq in Heq. subst; assumption.
  - intros H. exists k. split; [ assumption | apply String.eqb_refl ].
Qed.

Lemma filter_absorb {A} (P Q : A -> bool) (l : list A) :
  (forall x, P x = true -> Q x = true) ->
  filter P (filter Q l) = filter P l.
Proof.
  intros H. induction l as [| x l IH]; simpl; [ reflexivity | ].
  destruct (Q x) eqn:Hq; simpl.
  - rewrite IH. reflexivity.
  - destruct (P x) eqn:Hp; [ | assumption ].
    apply H in Hp. congruence.
Qed.

Lemma filter_all {A} (P : A -> bool) (l : list A) :
  (forall x, P x = true) -> filter P l = l.
Proof.
  intros H. induction l as [| x l IH]; simpl; [ reflexivity | ].
  rewrite H, IH. reflexivity.
Qed.

Lemma filter_fresh_snoc (u : list string) (k : string) (l : list string) :
  filter (fresh (u ++ [k])) l
  = filter (fresh u) (filter (fun k' => negb (String.eqb k' k)) l).
Proof.
  induction l as [| x l IH]; simpl; [ reflexivity | ].
  unfold fresh at 1. rewrite existsb_app. simpl. rewrite orb_false_r.
  destruct (String.eqb x k) eqn:Hx; simpl.
  - rewrite orb_true_r. simpl. apply IH.
  - rewrite orb_false_r. fold (fresh u x). destruct (fresh u x); rewrite IH; reflexivity.
Qed.

(** The discovery pass, started from the keys [u] already found, appends
    the new keys where they are first seen. *)
Lemma fold_add_unique (ks : list string) :
  forall u, fold_left add_unique ks u = u ++ filter (fresh u) (first_seen ks).
Proof.
  induction ks as [| k ks IH]; intros u; simpl.
  - rewrite app_nil_r. reflexivity.
  - unfold add_unique at 2. unfold fresh at 1.
    destruct (existsb (String.eqb k) u) eqn:Hk; simpl.
    + rewrite IH. f_equal. symmetry. apply filter_absorb.
      intros x Hx. unfold fresh in Hx. apply negb_true_iff in Hx.
      apply negb_true_iff. apply String.eqb_neq. intros ->. congruence.
    + rewrite IH, <- app_assoc. simpl. rewrite filter_fresh_snoc. reflexivity.
Qed.

Lemma fold_records (records : list dict) :
  forall u,
    fold_left (fun uniques r => fold_left add_unique (keys r) uniques) records u
    = fold_left add_unique (List.concat (map keys records)) u.
Proof.
  induction records as [| r records IH]; intros u; simpl.
  - reflexivity.
  - rewrite fold_left_app. apply IH.
Qed.

Lemma union_of_keys_first_seen (records : list dict) :
  union_of_keys records = first_seen (List.concat (map keys records)).
Proof.
  unfold union_of_keys. rewrite fold_records, fold_add_unique. simpl.
  apply filter_all. reflexivity.
Qed.

Lemma first_seen_In (ks : list string) (k : string) :
  In k (first_seen ks) <-> In k ks.
Proof.
  induction ks as [| k0 ks IH]; simpl; [ tauto | ].
  rewrite filter_In, IH. rewrite negb_true_iff, String.eqb_neq.
  destruct (String.eqb_spec k0 k) as [-> | Hne]; [ tauto | ].
  split; [ tauto | ]. intros [H | H]; [ tauto | ]. right. split; [ assumption | congruence ].
Qed.

Lemma first_seen_NoDup (ks : list string) : NoDup (first_seen ks).
Proof.
  induction ks as [| k ks IH]; simpl; constructor.
  - rewrite filter_In, negb_true_iff, String.eqb_neq. tauto.
  - apply NoDup_filter. assumption.
Qed.

Lemma nth_error_rows (df : DataFrame) (i : nat) :
  i < index df -> nth_error (rows df) i = Some (iloc df i).
Proof.
  intros Hi. unfold rows. rewrite nth_error_map.
  rewrite nth_error_seq. apply Nat.ltb_lt in Hi. rewrite Hi. reflexivity.
Qed.

Lemma nth_column_of (records : list dict) (k : string) (i : nat) (r : dict) :
  nth_error records i = Some r ->
  nth i (column_of records k) NaN = match dict_get r k with Some v => v | None => NaN end.
Proof.
  intros Hr. unfold column_of.
  apply nth_error_nth. rewrite nth_error_map, Hr. reflexivity.
Qed.

Lemma contains_getitem (df : DataFrame) (name : string) :
  contains df name = true <-> exists values, getitem df name = Some values.
Proof.
  unfold contains, getitem, columns. destruct df as [n cols]. simpl.
  induction cols as [| [k vs] cols IH]; simpl.
  - split; [ discriminate | intros (v & H); discriminate ].
  - destruct (String.eqb name k); simpl.
    + split; eauto.
    + exact IH.
Qed.

Lemma columns_setitem (df : DataFrame) (name : string) (values : list pyval) :
  contains df name = true ->
  columns (setitem df name values) = columns df.
Proof.
  intros H. unfold setitem, columns. simpl. rewrite H.
  rewrite map_map. apply map_ext. intros [k vs]. simpl.
  destruct (String.eqb name k); reflexivity.
Qed.

Lemma getitem_setitem_other (df : DataFrame) (name other : string) (values : list pyval) :
  contains df name = true -> other <> name ->
  getitem (setitem df name values) other = getitem df other.
Proof.
  intros H Hne. unfold setitem, getitem. simpl. rewrite H. clear H.
  destruct df as [n cols]. simpl.
  induction cols as [| [k vs] cols IH]; simpl; [ reflexivity | ].
  destruct (String.eqb_spec name k) as [<- | Hk]; simpl.
  - apply String.eqb_neq in Hne. rewrite Hne. exact IH.
  - destruct (String.eqb other k); [ reflexivity | exact IH ].
Qed.

Lemma getitem_setitem_same (df : DataFrame) (name : string) (values : list pyval) :
  contains df name = true ->
  getitem (setitem df name values) name = Some values.
Proof.
  intros H. unfold setitem, getitem. simpl. rewrite H.
  unfold contains, columns in H. destruct df as [n cols]. simpl in *.
  induction cols as [| [k vs] cols IH]; simpl in *; [ discriminate | ].
  destruct (String.eqb name k) eqn:Hk; simpl.
  - rewrite Hk. reflexivity.
  - rewrite Hk. apply IH. assumption.
Qed.

Lemma iloc_length (df : DataFrame) (i : nat) :
  List.length (iloc df i) = List.length (columns df).
Proof. unfold iloc, columns. rewrite !length_map. reflexivity. Qed.

Lemma rows_rectangular (df : DataFrame) :
  Forall (fun row => List.length row = List.length (columns df)) (rows df).
Proof.
  unfold rows. apply Forall_forall. intros row Hrow.
  apply in_map_iff in Hrow as (i & <- & _). apply iloc_length.
Qed.

Lemma columns_clean_data (W : World) (df : DataFrame) :
  columns (clean_data W df) = columns df.
Proof.
  unfold clean_data. destruct (contains df "_id") eqn:Hid; [ | reflexivity ].
  destruct (getitem df "_id"); [ | reflexivity ].
  apply columns_setitem. assumption.
Qed.

(** C6.  The frame built from a record set (non-empty or not) has as
    columns the union of the keys of the records, each once, in the order
    in which the keys are first seen; it has one row per record, and row
    [i] holds, for every column, the record's value for that key, or the
    null marker [NaN] when the record has no such key.  The table the script
    goes on with, after [clean_data], has the same columns, and each of its
    rows has a cell for every column. *)
Theorem frame_columns_are_union_of_keys (W : World) (records : list dict) :
  columns (DataFrame_of_records records) = first_seen (List.concat (map keys records))
  /\ NoDup (columns (DataFrame_of_records records))
  /\ (forall k, In k (columns (DataFrame_of_records records))
                <-> exists r, In r records /\ In k (keys r))
  /\ List.length (rows (DataFrame_of_records records)) = List.length records
  /\ (forall i r, nth_error records i = Some r ->
        nth_error (rows (DataFrame_of_records records)) i
        = Some (map (fun k => match dict_get r k with Some v => v | None => NaN end)
                    (columns (DataFrame_of_records records))))
  /\ columns (clean_data W (DataFrame_of_records records))
     = first_seen (List.concat (map keys records))
  /\ Forall (fun row => List.length row
                        = List.length (columns (clean_data W (DataFrame_of_records records))))
            (rows (clean_data W (DataFrame_of_records records))).
Proof.
  assert (Hcols : columns (DataFrame_of_records records)
                  = first_seen (List.concat (map keys records))).
  { unfold columns, DataFrame_of_records. simpl. rewrite map_map. simpl.
    rewrite map_id. apply union_of_keys_first_seen. }
  split; [ exact Hcols | ].
  split; [ rewrite Hcols; apply first_seen_NoDup | ].
  split; [ | split; [ | split; [ | split ] ] ].
  - intros k. rewrite Hcols, first_seen_In, in_concat. split.
    + intros (ks & Hks & Hk). apply in_map_iff in Hks as (r & <- & Hr). eauto.
    + intros (r & Hr & Hk). exists (keys r). split; [ apply in_map; assumption | assumption ].
  - unfold rows. rewrite length_map, length_seq. reflexivity.
  - intros i r Hr. rewrite nth_error_rows.
    + f_equal. unfold iloc, columns, DataFrame_of_records. simpl.
      rewrite !map_map. simpl. apply map_ext. intros k.
      apply nth_column_of. assumption.
    + simpl. apply nth_error_Some. congruence.
  - rewrite columns_clean_data. exact Hcols.
  - apply rows_rectangular.
Qed.

End Frames.

Section DelimitedExport.
Local Open Scope list_scope.
Variable W : World.

Lemma strings_back (rows : list (list string)) :
  map (map string_of_list_ascii) (map (map list_ascii_of_string) rows) = rows.
Proof.
  rewrite map_map. rewrite <- (map_id rows) at 2. apply map_ext. intros row.
  rewrite map_map. rewrite <- (map_id row) at 2. apply map_ext. intros cell.
  apply string_of_list_ascii_of_string.
Qed.

Lemma write_new (data : Csv.bytes) :
  Io.write Io.new data = {| Io.getvalue := data; Io.tell := List.length data |}.
Proof.
  unfold Io.write, Io.new. simpl. rewrite skipn_nil, app_nil_r. reflexivity.
Qed.

Lemma read_to_csv (df : DataFrame) :
  Csv.read_table (Io.getvalue (to_csv W df Io.new false))
  = Some (columns df, map (map (cell_text W)) (rows df)).
Proof.
  unfold to_csv, Csv.read_table, csv_rows. rewrite write_new.
  cbn [Io.getvalue]. cbv beta iota zeta.
  rewrite reader_writerows, strings_back. reflexivity.
Qed.

Lemma read_cell (df : DataFrame) (i j : nat) (name : string) (values : list pyval) :
  i < index df ->
  nth_error (data df) j = Some (name, values) ->
  option_map (fun row => nth_error row j) (nth_error (map (map (cell_text W)) (rows df)) i)
  = Some (Some (cell_text W (nth i values NaN))).
Proof.
  intros Hi Hj. rewrite nth_error_map, nth_error_rows by assumption. simpl.
  unfold iloc. rewrite !nth_error_map, Hj. reflexivity.
Qed.

Lemma read_column (df : DataFrame) (j : nat) (name : string) (values : list pyval) :
  nth_error (data df) j = Some (name, values) ->
  map (fun row => nth j row "") (map (map (cell_text W)) (rows df))
  = map (fun i => cell_text W (nth i values NaN)) (seq 0 (index df)).
Proof.
  intros Hj. unfold rows. rewrite !map_map. apply map_ext. intros i.
  apply nth_error_nth. unfold iloc. rewrite !nth_error_map, Hj. reflexivity.
Qed.

Lemma strings_read_back (values : list pyval) :
  (forall v, In v values -> exists s, v = PStr s) ->
  map (fun i => PStr (cell_text W (nth i values NaN))) (seq 0 (List.length values)) = values.
Proof.
  intros Hstr. apply (nth_ext _ _ NaN NaN).
  - rewrite length_map, length_seq. reflexivity.
  - intros n Hn. rewrite length_map, length_seq in Hn.
    rewrite (nth_indep _ NaN (PStr (cell_text W (nth 0 values NaN))))
      by (rewrite length_map, length_seq; assumption).
    rewrite (map_nth (fun i => PStr (cell_text W (nth i values NaN)))).
    rewrite seq_nth by assumption. simpl.
    destruct (Hstr (nth n values NaN)) as (s & Hs); [ apply nth_In; assumption | ].
    rewrite Hs. reflexivity.
Qed.

(** C8 (as amended).  Reading back, as delimited text, the bytes the CSV
    export of a frame writes gives the frame's column names as header and
    one row per row of the frame, and the field of row [i] under column [j]
    is fixed by the cell's value: a string reads back as itself, whatever
    commas, quotes and line breaks it holds; an integer as its decimal
    digits; a boolean as True or False; an ObjectId as its hexadecimal
    text; a float as its text, and as the empty field when it is nan;
    [None] as the empty field.  A column that holds only strings is
    recovered value for value.  So the fields read back are texts: a
    column of strings comes back as the same values, any other scalar as
    its text. *)
Theorem csv_export_reads_back (df : DataFrame) :
  exists body,
    Csv.read_table (Io.getvalue (to_csv W df Io.new false)) = Some (columns df, body)
    /\ List.length body = index df
    /\ (forall i j name values,
          i < index df ->
          nth_error (data df) j = Some (name, values) ->
          exists field,
            option_map (fun row => nth_error row j) (nth_error body i) = Some (Some field)
            /\ (forall s, nth i values NaN = PStr s -> field = s)
            /\ (forall z, nth i values NaN = PInt z -> field = string_of_Z z)
            /\ (forall b, nth i values NaN = PBool b -> field = if b then "True" else "False")
            /\ (forall h, nth i values NaN = PObjectId h -> field = h)
            /\ (forall r, nth i values NaN = PFloat r ->
                  field = if String.eqb r "nan" then "" else r)
            /\ (nth i values NaN = PNone -> field = ""))
    /\ (forall j name values,
          nth_error (data df) j = Some (name, values) ->
          List.length values = index df ->
          (forall v, In v values -> exists s, v = PStr s) ->
          map (fun row => PStr (nth j row "")) body = values).
Proof.
  exists (map (map (cell_text W)) (rows df)).
  split; [ apply read_to_csv | split; [ | split ] ].
  - unfold rows. rewrite !length_map, length_seq. reflexivity.
  - intros i j name values Hi Hj. exists (cell_text W (nth i values NaN)).
    split; [ apply (read_cell df i j name values Hi Hj) | ].
    repeat split; intros;
      match goal with H : nth _ _ _ = _ |- _ => rewrite H end; reflexivity.
  - intros j name values Hj Hlen Hstr.
    rewrite <- (map_map (fun row => nth j row "") PStr).
    rewrite (read_column df j name values Hj), map_map, <- Hlen.
    apply strings_read_back. assumption.
Qed.

End DelimitedExport.

(** C8 as stated fails: the export does not keep "the same cell values".
    The frame of the record with the number 1 and an empty text, and the
    frame of the record with the text 1 and [None], are different all-scalar
    tables, and their CSV exports are the same bytes: the header n,note and
    the row 1 followed by an empty field.  Whatever reads the bytes back gives
    one table for both. *)
Lemma csv_export_conflates_values :
  Io.getvalue (to_csv Examples.reachable
                 (clean_data Examples.reachable (DataFrame_of_records Examples.blank_note))
                 Io.new false)
  = Io.getvalue (to_csv Examples.reachable
                   (clean_data Examples.reachable (DataFrame_of_records Examples.no_note))
                   Io.new false)
  /\ data (clean_data Examples.reachable (DataFrame_of_records Examples.blank_note))
     = [("n", [PInt 1]); ("note", [PStr ""])]
  /\ data (clean_data Examples.reachable (DataFrame_of_records Examples.no_note))
     = [("n", [PStr "1"]); ("note", [PNone])]
  /\ Csv.read_table
       (Io.getvalue (to_csv Examples.reachable
                       (clean_data Examples.reachable (DataFrame_of_records Examples.blank_note))
                       Io.new false))
     = Some (["n"; "note"], [ ["1"; ""] ]).
Proof. repeat split; vm_compute; reflexivity. Qed.

Section Artifacts.
Local Open Scope list_scope.
Variable W : World.

(** C9.  For every frame: with format CSV the export block returns, with
    no call that could fail, a buffer positioned at the start whose bytes
    read back as the column names followed by one row of as many cells per
    row of the frame (so no index column), with content type text/csv and
    file name mongo_export.csv; with format Excel, when openpyxl saves the
    workbook, that workbook has exactly one sheet, whose first row is the
    column names and whose other rows have as many cells (no index column),
    and the block returns the saved bytes in a buffer positioned at the
    start, with the spreadsheet content type and file name
    mongo_export.xlsx. *)
Theorem export_artifacts (inp : Inputs) (df : DataFrame) (s : Frame) :
  (file_format inp = CSV ->
   exists buffer,
     export W inp df s = (Ok (buffer, "text/csv", "mongo_export.csv"), s)
     /\ Io.tell buffer = 0
     /\ Csv.read_table (Io.getvalue buffer)
        = Some (columns df, map (map (cell_text W)) (rows df))
     /\ Forall (fun row => List.length row = List.length (columns df))
               (map (map (cell_text W)) (rows df)))
  /\ (file_format inp = Excel ->
      forall saved,
        openpyxl_save W (excel_workbook df false) = Ok saved ->
        exists sheet body,
          excel_workbook df false = [sheet]
          /\ grid sheet = map PStr (columns df) :: body
          /\ Forall (fun row => List.length row = List.length (columns df)) body
          /\ export W inp df s
             = (Ok ({| Io.getvalue := saved; Io.tell := 0 |},
                    "application/vnd.openxmlformats-officedocument.spreadsheetml.sheet",
                    "mongo_export.xlsx"),
                {| client := client s;
                   trace := trace s ++ [Called (to_excel (excel_workbook df false)) None] |})).
Proof.
  split.
  - intros Hformat. unfold export. rewrite Hformat.
    exists (Io.seek (to_csv W df Io.new false) 0).
    repeat split.
    + apply read_to_csv.
    + apply Forall_map. eapply Forall_impl; [ | apply rows_rectangular ].
      intros row Hrow. simpl. rewrite length_map. assumption.
  - intros Hformat saved Hsaved. unfold export. rewrite Hformat.
    eexists. exists (map (map excel_cell) (rows df)).
    split; [ reflexivity | split; [ reflexivity | split ] ].
    + apply Forall_map. eapply Forall_impl; [ | apply rows_rectangular ].
      intros row Hrow. simpl. rewrite length_map. assumption.
    + unfold mbind, call_result. rewrite Hsaved. unfold mbind, emit, ret.
      rewrite write_new. reflexivity.
Qed.

(** ** [clean_data] *)

(** C10.  [clean_data] keeps the labels, their order and the number of
    rows; it leaves every column other than "_id" as it was; without an
    "_id" column it returns the frame itself; and the "_id" column, when
    there is one, becomes the strings of its values. *)
Theorem clean_data_touches_only_id (df : DataFrame) :
  columns (clean_data W df) = columns df
  /\ index (clean_data W df) = index df
  /\ (forall name, name <> "_id" -> getitem (clean_data W df) name = getitem df name)
  /\ (contains df "_id" = false -> clean_data W df = df)
  /\ (forall ids, getitem df "_id" = Some ids ->
        getitem (clean_data W df) "_id" = Some (astype_str W ids)).
Proof.
  unfold clean_data.
  destruct (contains df "_id") eqn:Hid.
  - destruct (proj1 (contains_getitem df "_id") Hid) as (ids & Hids). rewrite Hids.
    repeat split.
    + apply columns_setitem. assumption.
    + intros name Hname. apply getitem_setitem_other; assumption.
    + discriminate.
    + intros ids' H. injection H as <-. apply getitem_setitem_same. assumption.
  - repeat split; try reflexivity.
    intros ids Hids.
    assert (contains df "_id" = true) by (apply contains_getitem; eauto).
    congruence.
Qed.

End Artifacts.

(** C7 fails on the script.  The second of these two documents holds an
    [ObjectId] in its [parent] field: [clean_data] turns the "_id" column
    into strings and leaves the [ObjectId] of the "parent" column as it
    is. *)
Lemma clean_data_keeps_other_object_ids :
  getitem (clean_data Examples.reachable (DataFrame_of_records Examples.documents)) "parent"
  = Some [NaN; PObjectId "5f1d7f3e8b0c4a2d9c6e4b1a"]
  /\ getitem (clean_data Examples.reachable (DataFrame_of_records Examples.documents)) "_id"
     = Some [PStr "5f1d7f3e8b0c4a2d9c6e4b1a"; PStr "5f1d7f3e8b0c4a2d9c6e4b1b"].
Proof. split; reflexivity. Qed.

(* ================================================================== *)
(** * Part III.  Further properties of the script                      *)
(* ================================================================== *)

(** ** The run as a whole *)

(** X1.  A run closes what it created and nothing else: the handles closed
    are exactly the handles created (none when the constructor raised or
    was never reached), and the variable [client] ends holding the handle
    created, if any. *)
Theorem nothing_closed_but_the_handle (W : World) (inp : Inputs) :
  closed (trace (snd (main W inp))) = created (trace (snd (main W inp)))
  /\ client (snd (main W inp)) = hd_error (created (trace (snd (main W inp)))).
Proof.
  unfold_script. split_world; split; reflexivity.
Qed.

(** X2.  There is no retry: a run makes at most one connection attempt,
    issues at most one query, closes at most once and announces at most one
    outcome. *)
Theorem each_step_at_most_once (W : World) (inp : Inputs) :
  connection_attempts (trace (snd (main W inp))) <= 1
  /\ List.length (queries (trace (snd (main W inp)))) <= 1
  /\ List.length (closed (trace (snd (main W inp)))) <= 1
  /\ List.length (outcomes (trace (snd (main W inp)))) <= 1.
Proof.
  unfold_script. split_world; stop_passes; cbn; repeat split; lia.
Qed.

(** X3.  How a run can end.  Either it ends normally having announced
    exactly one outcome; or it ends by [st.stop()] having announced the
    FilterSyntax failure; or an exception that is no instance of [Exception],
    raised by one of the calls, leaves the script with nothing announced. *)
Theorem every_run_ends_reported (W : World) (inp : Inputs) :
  (fst (main W inp) = Ok tt /\ exists o, outcomes (trace (snd (main W inp))) = [o])
  \/ (fst (main W inp) = Raise StopException
      /\ exists body, outcomes (trace (snd (main W inp))) = [Failure FilterSyntax body])
  \/ (exists site e,
        fst (main W inp) = Raise e
        /\ In (Called site (Some e)) (trace (snd (main W inp)))
        /\ isinstance e "Exception" = false
        /\ outcomes (trace (snd (main W inp))) = []).
Proof.
  unfold_script. split_world; stop_passes.
  all: first
    [ left; split; [ reflexivity | eexists; reflexivity ]
    | right; left; split; [ reflexivity | eexists; reflexivity ]
    | right; right; do 2 eexists;
      split; [ reflexivity | split; [ cbn [In]; eauto 20 | split; [ assumption | reflexivity ] ] ] ].
Qed.

(** X4.  A connection is attempted only once the filter has been decoded,
    and only on the URI given, with a server selection timeout of 5000 ms:
    the attempt is the third event of the run, after the decode and the log
    line. *)
Theorem connection_goes_to_the_given_uri (W : World) (inp : Inputs)
    (uri : string) (timeout : Z) (r : option exn) :
  In (Called (new_MongoClient uri timeout) r) (trace (snd (main W inp))) ->
  uri = mongo_uri inp /\ timeout = 5000%Z
  /\ (exists query, loads W (filter_input inp) = Ok query)
  /\ firstn 3 (trace (snd (main W inp)))
     = [ Called (json_loads (filter_input inp)) None;
         logging_info ("Attempting to connect to " ++ mongo_uri inp ++ "...");
         Called (new_MongoClient uri timeout) r ].
Proof.
  intros Hnew.
  run_script Hnew; repeat split; eauto.
Qed.

Lemma connection_goes_to_the_given_uri_witness :
  firstn 3 (trace (snd (main Examples.unreachable
                             (Examples.inputs Examples.active_filter CSV))))
  = [ Called (json_loads Examples.active_filter) None;
      logging_info "Attempting to connect to mongodb://db.invalid:27017/...";
      Called (new_MongoClient "mongodb://db.invalid:27017/" 5000) None ].
Proof.
  apply (connection_goes_to_the_given_uri Examples.unreachable
           (Examples.inputs Examples.active_filter CSV)
           "mongodb://db.invalid:27017/" 5000 None).
  vm_compute. do 2 right. left. reflexivity.
Defined.

(** X5.  A query is issued only at the end of this sequence: the filter
    decoded, the client made on the given URI with a 5000 ms timeout, the
    reachability check passed, the named database and collection taken.  The
    query is the decoded filter itself, unchanged, on that collection, and
    it is the ninth event of the run. *)
Theorem query_is_the_decoded_filter (W : World) (inp : Inputs)
    (col : Collection) (query : pyval) (r : option exn) :
  In (Called (find col query) r) (trace (snd (main W inp))) ->
  loads W (filter_input inp) = Ok query
  /\ col = collection_of inp
  /\ firstn 9 (trace (snd (main W inp)))
     = [ Called (json_loads (filter_input inp)) None;
         logging_info ("Attempting to connect to " ++ mongo_uri inp ++ "...");
         Called (new_MongoClient (mongo_uri inp) 5000) None;
         Called (server_info {| host := mongo_uri inp; serverSelectionTimeoutMS := 5000 |}) None;
         logging_info "Connection successful.";
         Called (getitem_database {| host := mongo_uri inp; serverSelectionTimeoutMS := 5000 |}
                                  (db_name inp)) None;
         Called (getitem_collection
                   {| db_client := {| host := mongo_uri inp; serverSelectionTimeoutMS := 5000 |};
                      database_name := db_name inp |}
                   (col_name inp)) None;
         logging_info ("Querying collection: " ++ col_name inp ++ " with filter: "
                       ++ py_str W query);
         Called (find (collection_of inp) query) r ].
Proof.
  intros Hfind.
  run_script Hfind; repeat split; reflexivity.
Qed.

Lemma query_is_the_decoded_filter_witness :
  loads Examples.reachable Examples.active_filter = Ok (PDict [("status", PStr "ACTIVE")]).
Proof.
  apply (query_is_the_decoded_filter Examples.reachable
           (Examples.inputs Examples.active_filter CSV)
           (collection_of (Examples.inputs Examples.active_filter CSV))
           (PDict [("status", PStr "ACTIVE")]) None).
  vm_compute. do 8 right. left. reflexivity.
Defined.

(** ** Success, failure and what is shown *)

Ltac pick_outcome H :=
  cbn in H;
  repeat match type of H with
    | _ \/ _ => destruct H as [H | H]
    | False => destruct H
    end;
  try discriminate H; try (injection H as; subst).

(** X6.  When the query returns records, what is offered for download is
    the export of [clean_data] of the frame of exactly those records: as
    CSV, always; as Excel, once openpyxl has saved the workbook of that
    frame.  The buffer is at its start, the run ends normally, and the
    success message counts the records returned. *)
Theorem fetched_records_are_offered (W : World) (inp : Inputs)
    (col : Collection) (query : pyval) (records : list dict) :
  In (Called (find col query) None) (trace (snd (main W inp))) ->
  find_list W col query = Ok records ->
  records <> [] ->
  (file_format inp = CSV ->
   fst (main W inp) = Ok tt
   /\ outcomes (trace (snd (main W inp)))
      = [ Success {| payload := Io.seek (to_csv W (clean_data W (DataFrame_of_records records))
                                                 Io.new false) 0;
                     content_type := "text/csv";
                     filename := "mongo_export.csv" |} ]
   /\ In (st_success ("✅ Successfully fetched " ++ string_of_nat (List.length records)
                      ++ " records!"))
         (trace (snd (main W inp))))
  /\ (file_format inp = Excel ->
      forall saved,
        openpyxl_save W (excel_workbook (clean_data W (DataFrame_of_records records)) false)
        = Ok saved ->
        fst (main W inp) = Ok tt
        /\ outcomes (trace (snd (main W inp)))
           = [ Success {| payload := Io.seek (Io.write Io.new saved) 0;
                          content_type :=
                            "application/vnd.openxmlformats-officedocument.spreadsheetml.sheet";
                          filename := "mongo_export.xlsx" |} ]
        /\ In (st_success ("✅ Successfully fetched " ++ string_of_nat (List.length records)
                           ++ " records!"))
              (trace (snd (main W inp)))).
Proof.
  intros Hfind Hrecords Hsome.
  split; intros Hformat; [ | intros saved Hsaved ].
  all: run_script Hfind; try congruence.
  all: match goal with
       | H1 : find_list _ ?c ?q = Ok _, H2 : find_list _ ?c ?q = Ok _ |- _ =>
           rewrite H1 in H2; injection H2 as <-
       end.
  all: try (match goal with
            | H1 : openpyxl_save _ ?b = _, H2 : openpyxl_save _ ?b = _ |- _ =>
                rewrite H1 in H2; first [ discriminate H2 | injection H2 as <- ]
            end).
  all: repeat split; try reflexivity; cbn [In]; eauto 20.
Qed.

Lemma fetched_records_are_offered_witness :
  fst (main Examples.reachable (Examples.inputs Examples.active_filter CSV)) = Ok tt
  /\ outcomes (trace (snd (main Examples.reachable (Examples.inputs Examples.active_filter CSV))))
     = [ Success {| payload :=
                      Io.seek (to_csv Examples.reachable
                                 (clean_data Examples.reachable
                                    (DataFrame_of_records Examples.documents))
                                 Io.new false) 0;
                    content_type := "text/csv";
                    filename := "mongo_export.csv" |} ]
  /\ In (st_success ("✅ Successfully fetched "
                     ++ string_of_nat (List.length Examples.documents) ++ " records!"))
        (trace (snd (main Examples.reachable (Examples.inputs Examples.active_filter CSV)))).
Proof.
  apply (fetched_records_are_offered Examples.reachable
           (Examples.inputs Examples.active_filter CSV)
           (collection_of (Examples.inputs Examples.active_filter CSV))
           (PDict [("status", PStr "ACTIVE")]) Examples.documents).
  - vm_compute. do 8 right. left. reflexivity.
  - reflexivity.
  - discriminate.
  - reflexivity.
Defined.

(** X7.  No partial artifact: a run that offers a download raised no
    exception in any call, offers nothing else, ended normally, hands over a
    buffer positioned at its start, and had its query return at least one
    record. *)
Theorem download_only_after_a_clean_run (W : World) (inp : Inputs) (artifact : ExportArtifact) :
  In (Success artifact) (outcomes (trace (snd (main W inp)))) ->
  fst (main W inp) = Ok tt
  /\ raised (trace (snd (main W inp))) = []
  /\ outcomes (trace (snd (main W inp))) = [Success artifact]
  /\ Io.tell (payload artifact) = 0
  /\ exists query records,
       loads W (filter_input inp) = Ok query
       /\ find_list W (collection_of inp) query = Ok records
       /\ records <> [].
Proof.
  intros Hdownload.
  unfold_script. split_world; stop_passes; pick_outcome Hdownload.
  all: repeat split; try reflexivity.
  all: do 2 eexists; repeat split; try eassumption; discriminate.
Qed.

Lemma download_only_after_a_clean_run_witness :
  raised (trace (snd (main Examples.reachable
                           (Examples.inputs Examples.active_filter Excel)))) = [].
Proof.
  apply (download_only_after_a_clean_run Examples.reachable
           (Examples.inputs Examples.active_filter Excel)
           {| payload := {| Io.getvalue := ["P"%char; "K"%char]; Io.tell := 0 |};
              content_type :=
                "application/vnd.openxmlformats-officedocument.spreadsheetml.sheet";
              filename := "mongo_export.xlsx" |}).
  vm_compute. left. reflexivity.
Defined.

(** X8.  No silent failure: the text of an error (an instance of
    [Exception]) raised by a call of the run appears both on the page, at the
    end of an error banner, and in the log, at the end of an error line; and
    it is the only exception the calls of that run raised. *)
Theorem errors_are_shown_and_logged (W : World) (inp : Inputs) (site : Call) (e : exn) :
  In (Called site (Some e)) (trace (snd (main W inp))) ->
  isinstance e "Exception" = true ->
  (exists lead, In (st_error (lead ++ str_e e)) (trace (snd (main W inp))))
  /\ (exists lead, In (logging_error (lead ++ str_e e)) (trace (snd (main W inp))))
  /\ raised (trace (snd (main W inp))) = [e].
Proof.
  intros Hraised Herror.
  run_script Hraised; try congruence.
  all: repeat split; try reflexivity.
  all: eexists; cbn [In]; repeat (first [ left; reflexivity | right ]).
Qed.

Lemma errors_are_shown_and_logged_witness :
  raised (trace (snd (main Examples.unreachable
                           (Examples.inputs Examples.active_filter CSV))))
  = [Examples.ServerSelectionTimeoutError "db.invalid:27017: timed out"].
Proof.
  apply (errors_are_shown_and_logged Examples.unreachable
           (Examples.inputs Examples.active_filter CSV)
           (server_info {| host := "mongodb://db.invalid:27017/";
                           serverSelectionTimeoutMS := 5000 |})).
  - vm_compute. do 3 right. left. reflexivity.
  - reflexivity.
Defined.

(** X9.  openpyxl is called only when the format is Excel, after a query
    that returned records, and on the workbook (without index) of the
    cleaned frame of those records. *)
Theorem workbook_saved_only_for_excel (W : World) (inp : Inputs)
    (wb : Workbook) (r : option exn) :
  In (Called (to_excel wb) r) (trace (snd (main W inp))) ->
  file_format inp = Excel
  /\ exists query records,
       loads W (filter_input inp) = Ok query
       /\ find_list W (collection_of inp) query = Ok records
       /\ records <> []
       /\ wb = excel_workbook (clean_data W (DataFrame_of_records records)) false.
Proof.
  intros Hsave.
  run_script Hsave.
  all: split; [ reflexivity | ].
  all: do 2 eexists; repeat split; try eassumption; try reflexivity; discriminate.
Qed.

Lemma workbook_saved_only_for_excel_witness :
  file_format (Examples.inputs Examples.active_filter Excel) = Excel
  /\ exists query records,
       loads Examples.reachable (filter_input (Examples.inputs Examples.active_filter Excel))
       = Ok query
       /\ find_list Examples.reachable
            (collection_of (Examples.inputs Examples.active_filter Excel)) query = Ok records
       /\ records <> []
       /\ excel_workbook (clean_data Examples.reachable (DataFrame_of_records Examples.documents))
            false
          = excel_workbook (clean_data Examples.reachable (DataFrame_of_records records)) false.
Proof.
  apply (workbook_saved_only_for_excel Examples.reachable
           (Examples.inputs Examples.active_filter Excel)
           (excel_workbook (clean_data Examples.reachable
                              (DataFrame_of_records Examples.documents)) false)
           None).
  vm_compute. do 10 right. left. reflexivity.
Defined.

(** X10.  The export format matters for the download only: if the run
    with format CSV offers no download, the run with format Excel is the same
    run, event for event. *)
Theorem format_only_matters_for_the_download (W : World) (inp : Inputs) :
  (forall artifact,
     In (Success artifact) (outcomes (trace (snd (main W (with_format inp CSV))))) -> False) ->
  main W (with_format inp Excel) = main W (with_format inp CSV).
Proof.
  intros Hnone.
  unfold with_format in *. unfold_script. cbn [mongo_uri db_name col_name filter_input file_format] in *.
  split_world; try reflexivity.
  all: exfalso; eapply Hnone; cbn; left; reflexivity.
Qed.

Lemma format_only_matters_for_the_download_witness :
  main Examples.no_match (with_format (Examples.inputs Examples.active_filter CSV) Excel)
  = main Examples.no_match (with_format (Examples.inputs Examples.active_filter CSV) CSV).
Proof.
  apply format_only_matters_for_the_download.
  intros artifact H. vm_compute in H. destruct H as [H | []]. discriminate H.
Defined.

(** ** [clean_data], again *)

Section CleanData.
Local Open Scope list_scope.
Variable W : World.

Lemma astype_str_twice (values : list pyval) :
  astype_str W (astype_str W values) = astype_str W values.
Proof.
  unfold astype_str. rewrite map_map. apply map_ext. intros v. reflexivity.
Qed.

Lemma contains_setitem (df : DataFrame) (name : string) (values : list pyval) :
  contains df name = true -> contains (setitem df name values) name = true.
Proof.
  intros H. unfold contains. rewrite columns_setitem by assumption. exact H.
Qed.

Lemma setitem_twice (df : DataFrame) (name : string) (values : list pyval) :
  contains df name = true ->
  setitem (setitem df name values) name values = setitem df name values.
Proof.
  intros H. unfold setitem at 1. rewrite contains_setitem by assumption.
  unfold setitem. rewrite H. simpl. f_equal.
  rewrite map_map. apply map_ext. intros [k vs]. simpl.
  destruct (String.eqb name k) eqn:Hk; simpl; rewrite Hk; reflexivity.
Qed.

(** X11.  [clean_data] is idempotent: cleaning a cleaned frame changes
    nothing. *)
Theorem clean_data_idempotent (df : DataFrame) :
  clean_data W (clean_data W df) = clean_data W df.
Proof.
  unfold clean_data at 2 3.
  destruct (contains df "_id") eqn:Hid.
  - destruct (proj1 (contains_getitem df "_id") Hid) as (ids & Hids). rewrite Hids.
    unfold clean_data.
    rewrite contains_setitem, getitem_setitem_same by assumption.
    rewrite astype_str_twice. apply setitem_twice. assumption.
  - unfold clean_data. rewrite Hid. reflexivity.
Qed.

Lemma getitem_In (df : DataFrame) (name : string) (values : list pyval) :
  getitem df name = Some values -> In (name, values) (data df).
Proof.
  unfold getitem. destruct (List.find _ (data df)) as [[k vs] |] eqn:Hfind; [ | discriminate ].
  intros H. injection H as <-. apply find_some in Hfind as [Hin Hk].
  simpl in Hk. apply String.eqb_eq in Hk. subst. assumption.
Qed.

Lemma aligned_of_records (records : list dict) : aligned (DataFrame_of_records records).
Proof.
  unfold aligned, DataFrame_of_records. simpl. apply Forall_map. apply Forall_forall.
  intros k _. simpl. unfold column_of. apply length_map.
Qed.

(** X12.  [clean_data] keeps a frame rectangular: if every column has one
    cell per row, so has every column of the result. *)
Theorem clean_data_keeps_columns_aligned (df : DataFrame) :
  aligned df -> aligned (clean_data W df).
Proof.
  intros Haligned. unfold clean_data.
  destruct (contains df "_id") eqn:Hid; [ | assumption ].
  destruct (getitem df "_id") as [ids |] eqn:Hids; [ | assumption ].
  assert (Hlen : List.length ids = index df).
  { apply getitem_In in Hids. unfold aligned in Haligned.
    rewrite Forall_forall in Haligned. apply (Haligned _ Hids). }
  unfold aligned, setitem. cbn [data index]. rewrite Hid. apply Forall_map.
  eapply Forall_impl; [ | exact Haligned ]. intros [k vs] Hcol. cbn [fst snd] in *.
  destruct (String.eqb "_id" k); cbn [fst snd].
  2: assumption.
  unfold astype_str. rewrite length_map. assumption.
Qed.
End CleanData.

Lemma clean_data_keeps_columns_aligned_witness :
  aligned (clean_data Examples.reachable (DataFrame_of_records Examples.documents)).
Proof.
  apply clean_data_keeps_columns_aligned.
  unfold aligned. vm_compute. repeat constructor.
Defined.

(** ** From the records to the file *)

Section CsvOfRecords.
Local Open Scope list_scope.
Variable W : World.

Lemma index_clean_data (df : DataFrame) : index (clean_data W df) = index df.
Proof.
  unfold clean_data. destruct (contains df "_id"); [ | reflexivity ].
  destruct (getitem df "_id"); reflexivity.
Qed.

Lemma contains_In (df : DataFrame) (name : string) :
  contains df name = true <-> In name (columns df).
Proof. unfold contains. apply existsb_eqb_In. Qed.

(** What [clean_data] leaves in the column at position [j]. *)
Lemma clean_data_column (df : DataFrame) (j : nat) (k : string) (vs : list pyval) :
  nth_error (data df) j = Some (k, vs) ->
  nth_error (data (clean_data W df)) j
  = Some (k, if String.eqb "_id" k
             then match getitem df "_id" with
                  | Some ids => astype_str W ids
                  | None => vs
                  end
             else vs).
Proof.
  intros Hj. unfold clean_data.
  destruct (contains df "_id") eqn:Hid.
  - destruct (proj1 (contains_getitem df "_id") Hid) as (ids & Hids). rewrite Hids.
    unfold setitem. cbn [data]. rewrite Hid, nth_error_map, Hj. cbn [option_map fst].
    destruct (String.eqb "_id" k); reflexivity.
  - rewrite Hj. destruct (String.eqb_spec "_id" k) as [<- | Hne]; [ | reflexivity ].
    assert (Hin : contains df "_id" = true).
    { apply contains_In. unfold columns.
      apply nth_error_In in Hj. apply (in_map fst) in Hj. exact Hj. }
    congruence.
Qed.

Lemma getitem_of_records (records : list dict) (k : string) :
  In k (columns (DataFrame_of_records records)) ->
  getitem (DataFrame_of_records records) k = Some (column_of records k).
Proof.
  unfold getitem, columns, DataFrame_of_records. cbn [data].
  induction (union_of_keys records) as [| k0 ks IH]; cbn [map List.find fst snd In].
  - intros [].
  - intros Hin. destruct (String.eqb_spec k k0) as [-> | Hne]; [ reflexivity | ].
    apply IH. destruct Hin as [Heq | Hin]; [ congruence | assumption ].
Qed.

Lemma column_of_records_nth (records : list dict) (j : nat) (k : string) :
  nth_error (columns (DataFrame_of_records records)) j = Some k ->
  nth_error (data (DataFrame_of_records records)) j = Some (k, column_of records k).
Proof.
  unfold columns, DataFrame_of_records. cbn [data].
  rewrite map_map. cbn [fst]. rewrite map_id, nth_error_map.
  intros ->. reflexivity.
Qed.

(** X13.  From the records to the CSV file.  Reading back the CSV export
    of the cleaned frame of a record set gives the frame's columns as header
    and one row per record; in the row of record [i], under every column
    [k]: a string value of the record reads back as itself and an ObjectId
    as its hexadecimal text, under "_id" and under any other column alike;
    where the record has no key [k] the field is empty, except under "_id",
    where it is the text nan that [astype(str)] made of the missing
    identifier. *)
Theorem csv_cells_follow_the_records (records : list dict) (i : nat) (r : dict) :
  nth_error records i = Some r ->
  exists body row,
    Csv.read_table
      (Io.getvalue (to_csv W (clean_data W (DataFrame_of_records records)) Io.new false))
    = Some (columns (DataFrame_of_records records), body)
    /\ nth_error body i = Some row
    /\ forall j k,
         nth_error (columns (DataFrame_of_records records)) j = Some k ->
         (forall s, dict_get r k = Some (PStr s) -> nth_error row j = Some s)
         /\ (forall h, dict_get r k = Some (PObjectId h) -> nth_error row j = Some h)
         /\ (dict_get r k = None ->
             nth_error row j = Some (if String.eqb k "_id" then "nan" else "")).
Proof.
  intros Hr.
  set (df := clean_data W (DataFrame_of_records records)).
  assert (Hi : i < index df).
  { unfold df. rewrite index_clean_data. cbn [index DataFrame_of_records].
    apply nth_error_Some. congruence. }
  exists (map (map (cell_text W)) (rows df)), (map (cell_text W) (iloc df i)).
  split; [ | split ].
  - rewrite read_to_csv. unfold df. rewrite columns_clean_data. reflexivity.
  - rewrite nth_error_map, nth_error_rows by assumption. reflexivity.
  - intros j k Hk.
    pose proof (column_of_records_nth records j k Hk) as Hcol.
    apply clean_data_column in Hcol. fold df in Hcol.
    unfold iloc. rewrite !nth_error_map, Hcol. cbn [option_map snd].
    destruct (String.eqb_spec "_id" k) as [<- | Hne].
    + rewrite getitem_of_records by (eapply nth_error_In; eassumption).
      assert (Hid : nth i (astype_str W (column_of records "_id")) NaN
                    = PStr (py_str W (match dict_get r "_id" with
                                      | Some v => v
                                      | None => NaN
                                      end))).
      { apply nth_error_nth.
        unfold astype_str, column_of. rewrite !nth_error_map, Hr. reflexivity. }
      rewrite Hid.
      repeat split.
      * intros s ->. reflexivity.
      * intros h ->. reflexivity.
      * intros ->. reflexivity.
    + rewrite (nth_column_of records k i r Hr).
      apply String.eqb_neq in Hne. rewrite String.eqb_sym in Hne. rewrite Hne.
      repeat split.
      * intros s ->. reflexivity.
      * intros h ->. reflexivity.
      * intros ->. reflexivity.
Qed.

End CsvOfRecords.

Lemma csv_cells_follow_the_records_witness :
  exists body row,
    Csv.read_table
      (Io.getvalue (to_csv Examples.reachable
                      (clean_data Examples.reachable (DataFrame_of_records Examples.documents))
                      Io.new false))
    = Some (["_id"; "status"; "parent"], body)
    /\ nth_error body 0 = Some row
    /\ nth_error row 0 = Some "5f1d7f3e8b0c4a2d9c6e4b1a"
    /\ nth_error row 1 = Some "ACTIVE"
    /\ nth_error row 2 = Some "".
Proof.
  destruct (csv_cells_follow_the_records Examples.reachable Examples.documents 0
              [("_id", PObjectId "5f1d7f3e8b0c4a2d9c6e4b1a"); ("status", PStr "ACTIVE")]
              eq_refl)
    as (body & row & Hread & Hrow & Hcells).
  exists body, row.
  split; [ exact Hread | split; [ exact Hrow | ] ].
  destruct (Hcells 0 "_id" eq_refl) as (_ & Hid & _).
  destruct (Hcells 1 "status" eq_refl) as (Hstatus & _ & _).
  destruct (Hcells 2 "parent" eq_refl) as (_ & _ & Hparent).
  split; [ apply Hid; reflexivity | ].
  split; [ apply Hstatus; reflexivity | ].
  apply Hparent. reflexivity.
Defined.

